(** * TaxCalculator: the calculation core, the form validation and the
      presentation helpers of the UPPETIT tax burden calculator.

    The Python sources are [app/calculator.py], [app/schemas.py] and
    [app/main.py].  Python's [float] is IEEE 754 binary64; the functions of
    the calculator are written once over an interface of the float
    operations they use ([PyFloat]), and read at two instances: [binary64]
    (Rocq's primitive floats, the arithmetic the program runs on) and
    [exact] (canonical rationals, the arithmetic without rounding). *)

From Stdlib Require Import ZArith QArith Qcanon Floats List String Ascii Bool Lia.
From Stdlib Require Import DecimalString Lqa.
Import ListNotations.

Set Warnings "-inexact-float".

(** ** Exceptions and the computations that may raise them *)

Inductive PyExc : Type :=
| ZeroDivisionError
| ValueError (msg : string)
| TypeError
| AttributeError (name : string).

Inductive py (A : Type) : Type :=
| Ok (a : A)
| Raise (e : PyExc).

Arguments Ok {A} a.
Arguments Raise {A} e.

Definition ret {A : Type} (a : A) : py A := Ok a.

Definition bind {A B : Type} (c : py A) (k : A -> py B) : py B :=
  match c with
  | Ok a => k a
  | Raise e => Raise e
  end.

Declare Scope py_scope.
Delimit Scope py_scope with py.

Notation "x <- c1 ;; c2" := (bind c1 (fun x => c2))
  (at level 61, c1 at next level, right associativity) : py_scope.

(** [try: body except Exception: pass]: an exception raised by [body] is
    swallowed and control falls through to the statement after the [try]. *)
Definition try_except_pass (body : py unit) : py unit :=
  match body with
  | Ok u => Ok u
  | Raise _ => Ok tt
  end.

(** ** The float operations the program uses *)

Class PyFloat (F : Type) : Type := {
  (** a numeric literal of the source, given by its decimal value *)
  lit : Q -> F;
  add : F -> F -> F;
  sub : F -> F -> F;
  mul : F -> F -> F;
  (** the quotient [x / y] for a divisor that is not zero *)
  div : F -> F -> F;
  (** [y == 0] *)
  is_zero : F -> bool;
  (** [x > y], [x < y], [x >= y] *)
  gt : F -> F -> bool;
  lt : F -> F -> bool;
  ge : F -> F -> bool;
  gt_zero_nonzero : forall y : F, gt y (lit 0) = true -> is_zero y = false
}.

Arguments lit {F _} q%_Q.

Notation "x + y" := (add x y) : py_scope.
Notation "x - y" := (sub x y) : py_scope.
Notation "x * y" := (mul x y) : py_scope.
Notation "x >? y" := (gt x y) (at level 70, no associativity) : py_scope.
Notation "x <? y" := (lt x y) (at level 70, no associativity) : py_scope.
Notation "x >=? y" := (ge x y) (at level 70, no associativity) : py_scope.

(** Python's [x / y] on floats raises [ZeroDivisionError] when [y == 0]. *)
Definition truediv {F : Type} `{PyFloat F} (x y : F) : py F :=
  if is_zero y then Raise ZeroDivisionError else Ok (div x y).

Notation "x / y" := (truediv x y) : py_scope.

(** The builtin [max(a, b)]: the first argument is kept unless the second
    compares strictly greater. *)
Definition py_max {F : Type} `{PyFloat F} (a b : F) : F :=
  if gt b a then b else a.

(** ** app/calculator.py *)

Section Calculator.

Context {F : Type} `{PyFloat F}.

Local Open Scope py_scope.

Definition ANNUAL_FIXED_INSURANCE_RUB : F := lit 2900.

(** [ANNUAL_FIXED_INSURANCE_RUB / 12.0], evaluated once when the module is
    loaded; the divisor is the literal [12.0]. *)
Definition FIXED_INSURANCE_RUB : F := div ANNUAL_FIXED_INSURANCE_RUB (lit 12).

Record Inputs : Type := mkInputs {
  turnover_total : F;
  gross_profit : F;
  turnover_aggregator : F;
  rent : F;
  subrent : F;
  electricity : F;
  other_utilities : F;
  payroll_total : F;
  white_payroll_override : option F;
  office_supplies : F;
  other_purchases_outside_opticom : F;
  write_offs : F;
  meal_compensation : F;
  other_write_offs : F;
  security : F;
  internet : F;
  maintenance : F;
  other_repairs : F;
  cash_service : F;
  mobile_connection : F;
  bank_services : F;
  uniform : F;
  fiscal_device : F;
  neo_service : F;
  garbage_cleaning : F;
  disinfection : F;
  promo_materials : F;
  inventory_result : F
}.

Record Derived : Type := mkDerived {
  royalty : F;
  white_payroll : F;
  aggregator_commission : F;
  fixed_insurance : F;
  acquiring : F
}.

Record Results : Type := mkResults {
  inputs : Inputs;
  derived : Derived;
  expenses : F;
  profit_before_tax : F;
  margin : option F;
  profitability : option F;
  taxable_profit : F;
  ausn_tax : F;
  ndfl_tax : F;
  total_tax : F;
  tax_burden_vs_turnover : option F;
  tax_burden_vs_profit : option F
}.

(** [float(x)] of a value that is a float already. *)
Definition float_ (x : F) : F := x.

Definition compute_white_payroll (payroll_total : F)
    (white_payroll_override : option F) : F :=
  match white_payroll_override with
  | Some o => if o >? lit 0 then float_ o else float_ payroll_total * lit 0.33
  | None => float_ payroll_total * lit 0.33
  end.

Definition derive_values (inp : Inputs) : Derived :=
  let royalty := turnover_total inp * lit 0.04 in
  let white_payroll :=
    compute_white_payroll (payroll_total inp) (white_payroll_override inp) in
  let aggregator_commission := turnover_aggregator inp * lit 0.35 in
  let fixed_insurance := FIXED_INSURANCE_RUB in
  let acquiring :=
    (turnover_total inp - turnover_aggregator inp) * lit 0.01 * lit 0.95 in
  mkDerived royalty white_payroll aggregator_commission fixed_insurance acquiring.

Definition calculate_expenses (inp : Inputs) (d : Derived) : F :=
  rent inp
  + subrent inp
  + electricity inp
  + other_utilities inp
  + payroll_total inp
  + royalty d
  + aggregator_commission d
  + fixed_insurance d
  + acquiring d
  + office_supplies inp
  + other_purchases_outside_opticom inp
  + write_offs inp
  + meal_compensation inp
  + other_write_offs inp
  + security inp
  + internet inp
  + maintenance inp
  + other_repairs inp
  + cash_service inp
  + mobile_connection inp
  + bank_services inp
  + uniform inp
  + fiscal_device inp
  + neo_service inp
  + garbage_cleaning inp
  + disinfection inp
  + promo_materials inp
  + inventory_result inp.

Definition calculate_taxable_profit (inp : Inputs) (d : Derived) : F :=
  let gp := gross_profit inp in
  let group_a :=
    rent inp + subrent inp + electricity inp + other_utilities inp + royalty d in
  let group_b :=
    white_payroll d
    + aggregator_commission d
    + fixed_insurance d
    + acquiring d
    + office_supplies inp
    + other_purchases_outside_opticom inp
    + write_offs inp
    + meal_compensation inp
    + other_write_offs inp in
  let group_c :=
    security inp
    + internet inp
    + maintenance inp
    + other_repairs inp
    + cash_service inp
    + mobile_connection inp
    + bank_services inp
    + uniform inp
    + fiscal_device inp
    + neo_service inp
    + garbage_cleaning inp
    + disinfection inp
    + promo_materials inp
    + inventory_result inp in
  gp - group_a - group_b - group_c.

(** [(x / y) if cond else None] *)
Definition if_else_None (cond : bool) (quotient : py F) : py (option F) :=
  if cond then (q <- quotient ;; ret (Some q)) else ret None.

Definition calculate_all (inp : Inputs) : py Results :=
  let d := derive_values inp in
  let expenses := calculate_expenses inp d in
  let profit_before_tax := gross_profit inp - expenses in
  margin <-
    if_else_None (turnover_total inp >? lit 0)
                 (gross_profit inp / turnover_total inp) ;;
  profitability <-
    if_else_None (turnover_total inp >? lit 0)
                 (profit_before_tax / turnover_total inp) ;;
  let taxable_profit := calculate_taxable_profit inp d in
  let ausn_tax :=
    py_max (taxable_profit * lit 0.20) (turnover_total inp * lit 0.03) in
  let ndfl_tax := white_payroll d * lit 0.13 in
  let total_tax := ausn_tax + ndfl_tax + fixed_insurance d in
  tax_burden_vs_turnover <-
    if_else_None (turnover_total inp >? lit 0)
                 (total_tax / turnover_total inp) ;;
  tax_burden_vs_profit <-
    if_else_None (profit_before_tax >? lit 0)
                 (total_tax / profit_before_tax) ;;
  ret (mkResults inp d expenses profit_before_tax margin profitability
                 taxable_profit ausn_tax ndfl_tax total_tax
                 tax_burden_vs_turnover tax_burden_vs_profit).

End Calculator.

Arguments Inputs F : clear implicits.
Arguments Derived F : clear implicits.
Arguments Results F : clear implicits.

(** ** app/calculator.py: [as_dict] *)

Section CalculatorDict.

Context {F : Type} `{PyFloat F}.

Local Open Scope string_scope.

Set Warnings "-register-all".

(** The values of the dictionary that [as_dict] builds: a float, [None], or
    a dictionary with string keys. *)
Inductive PyObj : Type :=
| OFloat (x : F)
| ONone
| ODict (items : list (string * PyObj)).

(** An [Optional[float]] as a value of the dictionary. *)
Definition optional (o : option F) : PyObj :=
  match o with
  | Some x => OFloat x
  | None => ONone
  end.

Definition as_dict (results : Results F) : PyObj :=
  ODict
    [ ("expenses", OFloat (expenses results));
      ("profit_before_tax", OFloat (profit_before_tax results));
      ("margin", optional (margin results));
      ("profitability", optional (profitability results));
      ("taxable_profit", OFloat (taxable_profit results));
      ("ausn_tax", OFloat (ausn_tax results));
      ("ndfl_tax", OFloat (ndfl_tax results));
      ("total_tax", OFloat (total_tax results));
      ("tax_burden_vs_turnover", optional (tax_burden_vs_turnover results));
      ("tax_burden_vs_profit", optional (tax_burden_vs_profit results));
      ("derived",
       ODict
         [ ("royalty", OFloat (royalty (derived results)));
           ("white_payroll", OFloat (white_payroll (derived results)));
           ("aggregator_commission",
            OFloat (aggregator_commission (derived results)));
           ("fixed_insurance", OFloat (fixed_insurance (derived results)));
           ("acquiring", OFloat (acquiring (derived results))) ]) ].

End CalculatorDict.

(** ** app/schemas.py and the request handler of app/main.py *)

Section Schemas.

Context {F : Type} `{PyFloat F}.

Local Open Scope string_scope.
Local Open Scope py_scope.

(** What a value of the payload can be: a float, [None], or the submitted
    text itself when [float()] refused it. *)
Inductive PyVal : Type :=
| VFloat (x : F)
| VNone
| VStr (raw : string).

(** A [dict] with string keys, in insertion order. *)
Definition Dict : Type := list (string * PyVal).

(** [d.get(key)]; [None] of the result stands for Python's [None] returned
    on a missing key. *)
Fixpoint dict_get (key : string) (d : Dict) : option PyVal :=
  match d with
  | [] => None
  | (k, v) :: rest => if String.eqb k key then Some v else dict_get key rest
  end.

Definition dict_set (key : string) (v : PyVal) (d : Dict) : Dict :=
  (d ++ [(key, v)])%list.

Definition _aggregator_not_negative (v : F) : py F :=
  if v <? lit 0
  then Raise (ValueError "Оборот агрегатора не может быть отрицательным")
  else ret v.

Definition _turnover_non_negative (v : F) : py F :=
  if v <? lit 0
  then Raise (ValueError "Оборот не может быть отрицательным")
  else ret v.

Definition _gross_profit_number (v : F) : py F := ret (float_ v).

(** The comparison and the [raise] stand inside the [try]; the handler is
    [except Exception: pass], and [return v] follows the [try] statement. *)
Definition _aggregator_not_more_than_total (v : F) (data : Dict) : py F :=
  let total := dict_get "turnover_total" data in
  _ <- try_except_pass
         match total with
         | None | Some VNone => ret tt
         | Some (VFloat t) =>
             if v >? t
             then Raise (ValueError
                    "Оборот агрегатора не должен превышать общий оборот")
             else ret tt
         | Some (VStr _) => Raise TypeError
         end ;;
  ret v.

Inductive Annotation : Type := Float | OptionalFloat.

(** [Field(default, ge=0)]: [fi_default = None] is the required [...]. *)
Record FieldInfo : Type := mkField {
  fi_name : string;
  fi_annotation : Annotation;
  fi_default : option PyVal;
  fi_ge0 : bool
}.

Definition zero_default : option PyVal := Some (VFloat (lit 0)).

Definition model_fields : list FieldInfo :=
  [ mkField "turnover_total" Float None true;
    mkField "gross_profit" Float None false;
    mkField "turnover_aggregator" Float zero_default true;
    mkField "rent" Float zero_default true;
    mkField "subrent" Float zero_default false;
    mkField "electricity" Float zero_default true;
    mkField "other_utilities" Float zero_default true;
    mkField "payroll_total" Float zero_default true;
    mkField "white_payroll_override" OptionalFloat (Some VNone) true;
    mkField "office_supplies" Float zero_default true;
    mkField "other_purchases_outside_opticom" Float zero_default true;
    mkField "write_offs" Float zero_default true;
    mkField "meal_compensation" Float zero_default true;
    mkField "other_write_offs" Float zero_default true;
    mkField "security" Float zero_default true;
    mkField "internet" Float zero_default true;
    mkField "maintenance" Float zero_default true;
    mkField "other_repairs" Float zero_default true;
    mkField "cash_service" Float zero_default true;
    mkField "mobile_connection" Float zero_default true;
    mkField "bank_services" Float zero_default true;
    mkField "uniform" Float zero_default true;
    mkField "fiscal_device" Float zero_default true;
    mkField "neo_service" Float zero_default true;
    mkField "garbage_cleaning" Float zero_default true;
    mkField "disinfection" Float zero_default true;
    mkField "promo_materials" Float zero_default true;
    mkField "inventory_result" Float zero_default false ].

(** The [@field_validator]s of a field, in the order the class defines them. *)
Definition field_validators (name : string) : list (F -> Dict -> py F) :=
  if String.eqb name "turnover_aggregator" then
    [ (fun v _ => _aggregator_not_negative v);
      _aggregator_not_more_than_total ]
  else if String.eqb name "turnover_total" then
    [ (fun v _ => _turnover_non_negative v) ]
  else if String.eqb name "gross_profit" then
    [ (fun v _ => _gross_profit_number v) ]
  else [].

Inductive FieldError : Type :=
| missing
| float_type
| float_parsing
| greater_than_equal
| value_error (e : PyExc).

(** The type and the [ge=0] bound of a field, before its validators. *)
Definition validate_annotation (fi : FieldInfo) (v : PyVal)
  : FieldError + PyVal :=
  match v with
  | VFloat x =>
      if fi_ge0 fi
      then if x >=? lit 0 then inr (VFloat x) else inl greater_than_equal
      else inr (VFloat x)
  | VNone =>
      match fi_annotation fi with
      | OptionalFloat => inr VNone
      | Float => inl float_type
      end
  | VStr _ => inl float_parsing
  end.

Fixpoint run_validators (vs : list (F -> Dict -> py F)) (v : F) (data : Dict)
  : py F :=
  match vs with
  | [] => ret v
  | f :: rest => v' <- f v data ;; run_validators rest v' data
  end.

Definition validate_field (fi : FieldInfo) (payload data : Dict)
  : FieldError + PyVal :=
  match dict_get (fi_name fi) payload with
  | None =>
      match fi_default fi with
      | Some dflt => inr dflt
      | None => inl missing
      end
  | Some v =>
      match validate_annotation fi v with
      | inl err => inl err
      | inr (VFloat x) =>
          match run_validators (field_validators (fi_name fi)) x data with
          | Ok x' => inr (VFloat x')
          | Raise e => inl (value_error e)
          end
      | inr other => inr other
      end
  end.

(** Fields are validated in declaration order; a validator sees in [data]
    the fields that passed before it, and the errors of all fields are
    collected. *)
Fixpoint validate_fields (fields : list FieldInfo) (payload data : Dict)
    (errors : list (string * FieldError))
  : Dict * list (string * FieldError) :=
  match fields with
  | [] => (data, errors)
  | fi :: rest =>
      match validate_field fi payload data with
      | inr v =>
          validate_fields rest payload (dict_set (fi_name fi) v data) errors
      | inl err =>
          validate_fields rest payload data
            (errors ++ [(fi_name fi, err)])%list
      end
  end.

(** Constructing [CalcForm] from the payload's keys: the validated model, or
    the [ValidationError]. *)
Definition CalcForm (payload : Dict) : list (string * FieldError) + Dict :=
  match validate_fields model_fields payload [] [] with
  | (data, []) => inr data
  | (_, errors) => inl errors
  end.

Definition attr (name : string) (data : Dict) : py F :=
  match dict_get name data with
  | Some (VFloat x) => ret x
  | _ => Raise (AttributeError name)
  end.

Definition attr_optional (name : string) (data : Dict) : py (option F) :=
  match dict_get name data with
  | Some (VFloat x) => ret (Some x)
  | Some VNone => ret None
  | _ => Raise (AttributeError name)
  end.

Definition _to_inputs (data : Dict) : py (Inputs F) :=
  turnover_total <- attr "turnover_total" data ;;
  gross_profit <- attr "gross_profit" data ;;
  turnover_aggregator <- attr "turnover_aggregator" data ;;
  rent <- attr "rent" data ;;
  subrent <- attr "subrent" data ;;
  electricity <- attr "electricity" data ;;
  other_utilities <- attr "other_utilities" data ;;
  payroll_total <- attr "payroll_total" data ;;
  white_payroll_override <- attr_optional "white_payroll_override" data ;;
  office_supplies <- attr "office_supplies" data ;;
  other_purchases_outside_opticom <-
    attr "other_purchases_outside_opticom" data ;;
  write_offs <- attr "write_offs" data ;;
  meal_compensation <- attr "meal_compensation" data ;;
  other_write_offs <- attr "other_write_offs" data ;;
  security <- attr "security" data ;;
  internet <- attr "internet" data ;;
  maintenance <- attr "maintenance" data ;;
  other_repairs <- attr "other_repairs" data ;;
  cash_service <- attr "cash_service" data ;;
  mobile_connection <- attr "mobile_connection" data ;;
  bank_services <- attr "bank_services" data ;;
  uniform <- attr "uniform" data ;;
  fiscal_device <- attr "fiscal_device" data ;;
  neo_service <- attr "neo_service" data ;;
  garbage_cleaning <- attr "garbage_cleaning" data ;;
  disinfection <- attr "disinfection" data ;;
  promo_materials <- attr "promo_materials" data ;;
  inventory_result <- attr "inventory_result" data ;;
  ret (mkInputs turnover_total gross_profit turnover_aggregator rent subrent
         electricity other_utilities payroll_total white_payroll_override
         office_supplies other_purchases_outside_opticom write_offs
         meal_compensation other_write_offs security internet maintenance
         other_repairs cash_service mobile_connection bank_services uniform
         fiscal_device neo_service garbage_cleaning disinfection
         promo_materials inventory_result).

(** The loop of [calculate] that fills the payload, key by key of
    [CalcForm.model_fields].  [form key] is what the submitted text of the
    field was read as: [None] for an absent or blank field, a float when
    [float()] accepted the text, the text itself otherwise (for the override,
    [parse_optional_float] gives the float NaN instead of the text). *)
Definition prepare_payload (form : string -> option PyVal) : Dict :=
  map (fun fi =>
         let key := fi_name fi in
         (key,
          match form key with
          | Some v => v
          | None =>
              if String.eqb key "white_payroll_override" then VNone
              else if String.eqb key "turnover_total"
                      || String.eqb key "gross_profit"
                      || String.eqb key "turnover_aggregator"
                   then VNone
                   else VFloat (lit 0)
          end))
      model_fields.

(** What the POST handler hands to the template: the validation errors and
    the results ([None] when validation failed). *)
Record Context_ : Type := mkContext {
  errors : list (string * FieldError);
  results : option (Results F)
}.

(** The [try] block of [calculate] in main.py, from the parsed payload on:
    only a [ValidationError] is caught. *)
Definition calculate (payload : Dict) : py Context_ :=
  match CalcForm payload with
  | inl errs => ret (mkContext errs None)
  | inr data =>
      inputs <- _to_inputs data ;;
      results <- calculate_all inputs ;;
      ret (mkContext [] (Some results))
  end.

End Schemas.

Arguments PyVal F : clear implicits.
Arguments Dict F : clear implicits.

(** ** Vocabulary of the statements on the validation *)

Section SchemasVocabulary.

Context {F : Type} `{PyFloat F}.

(** What a field that passes holds: the value of the payload as its type
    and bound accept it, or the default when the payload has no such key. *)
Definition field_result (fi : @FieldInfo F) (payload : Dict F) (v : PyVal F)
  : Prop :=
  match dict_get (fi_name fi) payload with
  | None => fi_default fi = Some v
  | Some given => validate_annotation fi given = inr v
  end.

(** A value of the type the field is annotated with. *)
Definition typed (fi : @FieldInfo F) (v : PyVal F) : Prop :=
  match v, fi_annotation fi with
  | VFloat _, _ => True
  | VNone, OptionalFloat => True
  | _, _ => False
  end.

(** The fields of an [Inputs] record that the form bounds by [ge=0]. *)
Definition bounded_fields (inp : Inputs F) : list F :=
  [ turnover_total inp; turnover_aggregator inp; rent inp; electricity inp;
    other_utilities inp; payroll_total inp; office_supplies inp;
    other_purchases_outside_opticom inp; write_offs inp;
    meal_compensation inp; other_write_offs inp; security inp; internet inp;
    maintenance inp; other_repairs inp; cash_service inp;
    mobile_connection inp; bank_services inp; uniform inp; fiscal_device inp;
    neo_service inp; garbage_cleaning inp; disinfection inp;
    promo_materials inp ].

End SchemasVocabulary.

(** ** Presentation: [format_money] and [format_percent] *)

Module Format.

Local Open Scope string_scope.

(** [n / d] rounded to the nearest integer, ties to even ([0 <= n], [0 < d]). *)
Definition round_half_even (n d : Z) : Z :=
  let q := (n / d)%Z in
  let r := (n mod d)%Z in
  match (2 * r ?= d)%Z with
  | Lt => q
  | Gt => (q + 1)%Z
  | Eq => if Z.even q then q else (q + 1)%Z
  end.

(** The magnitude [m * 2^e] in hundredths, correctly rounded. *)
Definition hundredths (m : positive) (e : Z) : Z :=
  if (0 <=? e)%Z
  then (Zpos m * 2 ^ e * 100)%Z
  else round_half_even (Zpos m * 100) (2 ^ (- e)).

Definition digits_of (n : Z) : string :=
  NilZero.string_of_uint (N.to_uint (Z.to_N n)).

(** The [,] option of the format specification: a comma before every group
    of three digits, counted from the right. *)
Fixpoint group_thousands (digits : string) : string :=
  match digits with
  | EmptyString => EmptyString
  | String c rest =>
      let k := String.length rest in
      String c (if ((0 <? k) && (k mod 3 =? 0))%nat
                then String "," (group_thousands rest)
                else group_thousands rest)
  end.

Definition two_digits (n : Z) : string :=
  digits_of (n / 10) ++ digits_of (n mod 10).

(** [f"{value:,.2f}"] *)
Definition format_comma_2f (value : float) : string :=
  match Prim2SF value with
  | S754_nan => "nan"
  | S754_infinity s => if s then "-inf" else "inf"
  | S754_zero s => if s then "-0.00" else "0.00"
  | S754_finite s m e =>
      let h := hundredths m e in
      (if s then "-" else "")
      ++ group_thousands (digits_of (h / 100)) ++ "." ++ two_digits (h mod 100)
  end.

(** [s.replace(old, new)] for one-character [old] and [new]. *)
Fixpoint replace (old new : ascii) (s : string) : string :=
  match s with
  | EmptyString => EmptyString
  | String c rest =>
      String (if Ascii.eqb c old then new else c) (replace old new rest)
  end.

(** [c in s] *)
Fixpoint contains (c : ascii) (s : string) : bool :=
  match s with
  | EmptyString => false
  | String a rest => Ascii.eqb a c || contains c rest
  end.

(** [s.rstrip(c)]: every trailing [c] removed. *)
Fixpoint rstrip (c : ascii) (s : string) : string :=
  match s with
  | EmptyString => EmptyString
  | String a rest =>
      match rstrip c rest with
      | EmptyString => if Ascii.eqb a c then EmptyString else String a EmptyString
      | kept => String a kept
      end
  end.

Definition format_money (value : option float) : string :=
  match value with
  | None => "-"
  | Some value =>
      let rounded := format_comma_2f value in
      let rounded := replace "," " " rounded in
      if contains "." rounded
      then rstrip "." (rstrip "0" rounded)
      else rounded
  end.

Definition format_percent (value : option float) : string :=
  match value with
  | None => "-"
  | Some value =>
      let percent := (value * 100)%float in
      let txt := replace "," " " (format_comma_2f percent) in
      let txt := rstrip "." (rstrip "0" txt) in
      txt ++ "%"
  end.

End Format.

(** ** app/main.py: the text of a form field before [float()] *)

Module Form.

Local Open Scope string_scope.

(** [s.replace(old, "")] for a one-character [old]. *)
Fixpoint remove (old : ascii) (s : string) : string :=
  match s with
  | EmptyString => EmptyString
  | String c rest =>
      if Ascii.eqb c old then remove old rest else String c (remove old rest)
  end.

(** [text.replace(" ", "").replace(",", ".")], the argument of [float()] in
    [parse_optional_float] and in the loop of [calculate].  A [str] is read
    here as its UTF-8 bytes: the space, the comma and the dot are single
    bytes that occur in no longer sequence, so replacing them byte by byte
    is replacing them character by character. *)
Definition clean (text : string) : string :=
  Format.replace "," "." (remove " " text).

End Form.

(** ** Vocabulary of the statements on strings *)

Module Text.

Local Open Scope string_scope.

Definition is_digit (c : ascii) : bool :=
  ((48 <=? nat_of_ascii c) && (nat_of_ascii c <=? 57))%nat.

(** Every character of [s] satisfies [p]. *)
Fixpoint every (p : ascii -> bool) (s : string) : bool :=
  match s with
  | EmptyString => true
  | String c rest => p c && every p rest
  end.

Fixpoint last_char (s : string) : option ascii :=
  match s with
  | EmptyString => None
  | String c EmptyString => Some c
  | String _ rest => last_char rest
  end.

(** The fraction of an amount of [x] hundredths, [0 <= x < 100], with its
    trailing zeros dropped: nothing, a dot and one digit, or a dot and two
    digits. *)
Definition fraction (x : Z) : string :=
  if (x =? 0)%Z then ""
  else if (x mod 10 =? 0)%Z then "." ++ Format.digits_of (x / 10)
  else "." ++ Format.digits_of (x / 10) ++ Format.digits_of (x mod 10).

(** The groups the user sees: the digits with one space before every group
    of three. *)
Definition spaced (digits : string) : string :=
  Format.replace "," " " (Format.group_thousands digits).

(** The minus sign of a negative amount. *)
Definition sign_of (s : bool) : string := if s then "-" else "".

End Text.

(** ** binary64, Python's [float]: literals *)

Module Binary64.

Local Open Scope float_scope.

(** The float of an integer of magnitude below 2^53 (exactly representable). *)
Definition of_Z (z : Z) : float :=
  match z with
  | Z0 => 0
  | Zpos _ => of_uint63 (Uint63.of_Z z)
  | Zneg p => - of_uint63 (Uint63.of_Z (Zpos p))
  end.

(** A decimal literal [n/d] with [n] and [d] below 2^53 denotes the binary64
    nearest to it, which is what the IEEE division of [n] by [d] returns. *)
Definition of_literal (q : Q) : float := of_Z (Qnum q) / of_Z (Zpos (Qden q)).

End Binary64.

(** ** Exact arithmetic: comparisons of rationals *)

Module Exact.

Definition gtb (x y : Qc) : bool :=
  match (x ?= y)%Qc with Gt => true | _ => false end.

Definition ltb (x y : Qc) : bool :=
  match (x ?= y)%Qc with Lt => true | _ => false end.

Definition geb (x y : Qc) : bool :=
  match (x ?= y)%Qc with Lt => false | _ => true end.

End Exact.

(** ** Vocabulary of the statements *)

Section Vocabulary.

Context {F : Type} `{PyFloat F}.

Local Open Scope py_scope.

(** The sum of a non-empty sequence of terms, added from left to right. *)
Definition total (terms : list F) : F :=
  match terms with
  | [] => lit 0
  | first :: rest => fold_left add rest first
  end.

(** A ratio guarded by [divisor > 0]. *)
Definition guarded_ratio (x divisor : F) : option F :=
  if divisor >? lit 0 then Some (div x divisor) else None.

(** The record [inp] with one field replaced ([dataclasses.replace]). *)
Definition with_override (inp : Inputs F) (override : option F) : Inputs F :=
  mkInputs (turnover_total inp) (gross_profit inp) (turnover_aggregator inp)
    (rent inp) (subrent inp) (electricity inp) (other_utilities inp)
    (payroll_total inp) override (office_supplies inp)
    (other_purchases_outside_opticom inp) (write_offs inp)
    (meal_compensation inp) (other_write_offs inp) (security inp)
    (internet inp) (maintenance inp) (other_repairs inp) (cash_service inp)
    (mobile_connection inp) (bank_services inp) (uniform inp)
    (fiscal_device inp) (neo_service inp) (garbage_cleaning inp)
    (disinfection inp) (promo_materials inp) (inventory_result inp).

Definition with_payroll_total (inp : Inputs F) (payroll : F) : Inputs F :=
  mkInputs (turnover_total inp) (gross_profit inp) (turnover_aggregator inp)
    (rent inp) (subrent inp) (electricity inp) (other_utilities inp) payroll
    (white_payroll_override inp) (office_supplies inp)
    (other_purchases_outside_opticom inp) (write_offs inp)
    (meal_compensation inp) (other_write_offs inp) (security inp)
    (internet inp) (maintenance inp) (other_repairs inp) (cash_service inp)
    (mobile_connection inp) (bank_services inp) (uniform inp)
    (fiscal_device inp) (neo_service inp) (garbage_cleaning inp)
    (disinfection inp) (promo_materials inp) (inventory_result inp).


End Vocabulary.

(** ** The inputs of the repository's tests, on binary64 *)

Module Scenario.

Local Open Scope float_scope.

(** [test_full_calculation_normal_case] *)
Definition normal_case : Inputs float :=
  mkInputs 1000000 300000 200000 100000 0 10000 5000 200000 None
           3000 20000 2000 1000 1000 5000 1000 2000 0 1000 1000 2000 1000
           500 0 1000 500 2000 0.

(** [test_zero_turnover_edge_cases] *)
Definition zero_turnover : Inputs float :=
  mkInputs 0 10000 0 0 0 0 0 0 None
           0 0 0 0 0 0 0 0 0 0 0 0 0 0 0 0 0 0 0.

(** Every field zero except [payroll_total = 1.0]. *)
Definition payroll_one : Inputs float :=
  mkInputs 0 0 0 0 0 0 0 1 None
           0 0 0 0 0 0 0 0 0 0 0 0 0 0 0 0 0 0 0.

(** A form with the three fields of revenue and profit filled in and every
    other field left blank. *)
Definition revenue_only (turnover gross aggregator : float) (key : string)
  : option (PyVal float) :=
  if String.eqb key "turnover_total" then Some (VFloat turnover)
  else if String.eqb key "gross_profit" then Some (VFloat gross)
  else if String.eqb key "turnover_aggregator" then Some (VFloat aggregator)
  else None.

(** [turnover_total = 100], [gross_profit = 50], [turnover_aggregator = 200]. *)
Definition aggregator_above_total : string -> option (PyVal float) :=
  revenue_only 100 50 200.

(** [turnover_total = 100] and [gross_profit = 50], the aggregator turnover
    and every other field left blank. *)
Definition aggregator_blank (key : string) : option (PyVal float) :=
  if String.eqb key "turnover_total" then Some (VFloat 100)
  else if String.eqb key "gross_profit" then Some (VFloat 50)
  else None.

(** [rent = -1] over the revenue of [aggregator_above_total]. *)
Definition negative_rent (key : string) : option (PyVal float) :=
  if String.eqb key "rent" then Some (VFloat (-1))
  else aggregator_above_total key.


End Scenario.

(** * Properties *)

(** ** The two arithmetics *)

(** *** binary64 *)

Lemma binary64_gt_zero_nonzero (y : float) :
  PrimFloat.ltb (Binary64.of_literal 0) y = true -> PrimFloat.eqb y 0 = false.
Proof.
  change (Binary64.of_literal 0) with 0%float.
  rewrite FloatAxioms.ltb_spec, FloatAxioms.eqb_spec.
  unfold SFltb, SFeqb.
  destruct (Prim2SF y) as [s | s | | s m e]; simpl;
    try destruct s; simpl; congruence.
Qed.

#[export] Instance binary64 : PyFloat float := {|
  lit := Binary64.of_literal;
  add := PrimFloat.add;
  sub := PrimFloat.sub;
  mul := PrimFloat.mul;
  div := PrimFloat.div;
  is_zero := fun y => PrimFloat.eqb y 0%float;
  gt := fun x y => PrimFloat.ltb y x;
  lt := fun x y => PrimFloat.ltb x y;
  ge := fun x y => PrimFloat.leb y x;
  gt_zero_nonzero := binary64_gt_zero_nonzero
|}.

(** *** exact: the same operations on rationals, without rounding *)

Lemma exact_gtb_spec (x y : Qc) : Exact.gtb x y = true <-> (y < x)%Qc.
Proof.
  unfold Exact.gtb. rewrite Qclt_alt.
  rewrite (Qcgt_alt x y).
  destruct (x ?= y)%Qc; split; congruence.
Qed.

Lemma exact_gt_zero_nonzero (y : Qc) :
  Exact.gtb y (Q2Qc 0) = true -> Qc_eq_bool y (Q2Qc 0) = false.
Proof.
  intros Hgt. apply exact_gtb_spec in Hgt.
  destruct (Qc_eq_bool y (Q2Qc 0)) eqn:E; [ | reflexivity ].
  apply Qc_eq_bool_correct in E.
  apply Qclt_not_eq in Hgt. congruence.
Qed.

#[export] Instance exact : PyFloat Qc := {|
  lit := Q2Qc;
  add := Qcplus;
  sub := Qcminus;
  mul := Qcmult;
  div := Qcdiv;
  is_zero := fun y => Qc_eq_bool y (Q2Qc 0);
  gt := Exact.gtb;
  lt := Exact.ltb;
  ge := Exact.geb;
  gt_zero_nonzero := exact_gt_zero_nonzero
|}.

(** ** The literals and the tests of the repository *)

Section RepositoryTests.

Local Open Scope float_scope.

(** The literal of the class is the binary64 that Rocq's own reading of the
    decimal gives, for every constant of the calculator. *)
Example literals_binary64 :
  (lit 0.04, lit 0.33, lit 0.35, lit 0.01, lit 0.95, lit 0.20, lit 0.03,
   lit 0.13, lit 2900, lit 12, lit 0)
  = (0.04, 0.33, 0.35, 0.01, 0.95, 0.20, 0.03, 0.13, 2900, 12, 0)%float.
Proof. reflexivity. Qed.

(** [test_compute_white_payroll_override_and_default], with [==] of floats. *)
Example test_compute_white_payroll :
  PrimFloat.eqb (compute_white_payroll 100000%float None) 33000 = true
  /\ PrimFloat.eqb (compute_white_payroll 120000%float (Some 50000%float)) 50000
     = true
  /\ PrimFloat.eqb (compute_white_payroll 90000%float (Some (-1)%float)) 29700
     = true.
Proof. repeat split; vm_compute; reflexivity. Qed.

(** [test_full_calculation_normal_case]: what [calculate_all] returns. *)
Example test_normal_case :
  exists r, calculate_all Scenario.normal_case = Ok r
  /\ derived r = mkDerived 40000 66000 70000 241.66666666666666 7600
  /\ expenses r = 476841.66666666669%float
  /\ profit_before_tax r = (-176841.66666666669)%float
  /\ margin r = Some 0.29999999999999999%float
  /\ profitability r = Some (-0.17684166666666667)%float
  /\ taxable_profit r = (-42841.666666666657)%float
  /\ ausn_tax r = 30000%float
  /\ ndfl_tax r = 8580%float
  /\ total_tax r = 38821.666666666664%float
  /\ tax_burden_vs_turnover r = Some 0.038821666666666664%float
  /\ tax_burden_vs_profit r = None.
Proof. eexists. split; [ vm_compute; reflexivity | ]. repeat split. Qed.

(** [test_zero_turnover_edge_cases] *)
Example test_zero_turnover :
  exists r, calculate_all Scenario.zero_turnover = Ok r
  /\ margin r = None
  /\ profitability r = None
  /\ taxable_profit r = 9758.3333333333339%float
  /\ ausn_tax r = 1951.666666666667%float
  /\ total_tax r = 2193.3333333333335%float
  /\ tax_burden_vs_turnover r = None.
Proof. eexists. split; [ vm_compute; reflexivity | ]. repeat split. Qed.

End RepositoryTests.

(** ** The calculation core, for any arithmetic *)

Section CalculatorFacts.

Context {F : Type} `{PyFloat F}.

Local Open Scope py_scope.

(** Behind the guard [y > 0] the division does not raise. *)
Lemma truediv_positive (x y : F) :
  (y >? lit 0) = true -> x / y = Ok (div x y).
Proof.
  intros Hpos. unfold truediv.
  rewrite (gt_zero_nonzero y Hpos). reflexivity.
Qed.

Lemma if_else_None_guarded (x y : F) :
  if_else_None (y >? lit 0) (x / y) = Ok (guarded_ratio x y).
Proof.
  unfold if_else_None, guarded_ratio.
  destruct (y >? lit 0) eqn:Hpos; [ | reflexivity ].
  rewrite (truediv_positive x y Hpos). reflexivity.
Qed.

(** [calculate_all] returns for every input, and this is the record it
    returns. *)
Lemma calculate_all_returns (inp : Inputs F) :
  let d := derive_values inp in
  let e := calculate_expenses inp d in
  let pbt := gross_profit inp - e in
  let tp := calculate_taxable_profit inp d in
  let ausn := py_max (tp * lit 0.20) (turnover_total inp * lit 0.03) in
  let ndfl := white_payroll d * lit 0.13 in
  let tt := ausn + ndfl + fixed_insurance d in
  calculate_all inp =
  Ok (mkResults inp d e pbt
        (guarded_ratio (gross_profit inp) (turnover_total inp))
        (guarded_ratio pbt (turnover_total inp))
        tp ausn ndfl tt
        (guarded_ratio tt (turnover_total inp))
        (guarded_ratio tt pbt)).
Proof.
  intros d e pbt tp ausn ndfl tt. unfold calculate_all.
  fold d. fold e. fold pbt. fold tp. fold ausn. fold ndfl. fold tt.
  rewrite !if_else_None_guarded. reflexivity.
Qed.

End CalculatorFacts.

Ltac returned_record :=
  eexists; split; [ apply calculate_all_returns | cbn ].

Section CoreClaims.

Context {F : Type} `{PyFloat F}.

Local Open Scope py_scope.

(** C1: for every input [calculate_all] returns, and the tax base it
    returns is the gross profit minus group A, minus group B, minus group C,
    where A is rent, subrent, electricity, other utilities and the royalty, B
    is the white payroll (not the payroll total), the aggregator commission,
    the fixed insurance, the acquiring fee, office supplies, other purchases,
    write-offs, meal compensation and other write-offs, and C is the 14
    remaining fields from security to the inventory result. *)
Theorem taxable_profit_three_groups (inp : Inputs F) :
  exists r, calculate_all inp = Ok r
  /\ derived r = derive_values inp
  /\ taxable_profit r =
       gross_profit inp
       - total [rent inp; subrent inp; electricity inp; other_utilities inp;
                royalty (derived r)]
       - total [white_payroll (derived r); aggregator_commission (derived r);
                fixed_insurance (derived r); acquiring (derived r);
                office_supplies inp; other_purchases_outside_opticom inp;
                write_offs inp; meal_compensation inp; other_write_offs inp]
       - total [security inp; internet inp; maintenance inp;
                other_repairs inp; cash_service inp; mobile_connection inp;
                bank_services inp; uniform inp; fiscal_device inp;
                neo_service inp; garbage_cleaning inp; disinfection inp;
                promo_materials inp; inventory_result inp].
Proof. returned_record. split; reflexivity. Qed.

(** C2: for every input the total of expenses that [calculate_all] returns
    is the sum of the raw cost fields, the payroll total among them, and of
    the derived royalty, aggregator commission, fixed insurance and acquiring
    fee (added from left to right in the order of the source); the white
    payroll is no term of it: whatever value it has, the total is the same. *)
Theorem expenses_sum_of_costs (inp : Inputs F) :
  exists r, calculate_all inp = Ok r
  /\ expenses r =
       total [rent inp; subrent inp; electricity inp; other_utilities inp;
              payroll_total inp;
              turnover_total inp * lit 0.04;
              turnover_aggregator inp * lit 0.35;
              FIXED_INSURANCE_RUB;
              (turnover_total inp - turnover_aggregator inp)
                * lit 0.01 * lit 0.95;
              office_supplies inp; other_purchases_outside_opticom inp;
              write_offs inp; meal_compensation inp; other_write_offs inp;
              security inp; internet inp; maintenance inp; other_repairs inp;
              cash_service inp; mobile_connection inp; bank_services inp;
              uniform inp; fiscal_device inp; neo_service inp;
              garbage_cleaning inp; disinfection inp; promo_materials inp;
              inventory_result inp]
  /\ royalty (derived r) = turnover_total inp * lit 0.04
  /\ aggregator_commission (derived r) = turnover_aggregator inp * lit 0.35
  /\ fixed_insurance (derived r) = FIXED_INSURANCE_RUB
  /\ acquiring (derived r) =
       (turnover_total inp - turnover_aggregator inp) * lit 0.01 * lit 0.95
  /\ forall w : F,
       calculate_expenses inp
         (mkDerived (royalty (derived r)) w (aggregator_commission (derived r))
                    (fixed_insurance (derived r)) (acquiring (derived r)))
       = expenses r.
Proof. returned_record. repeat split. Qed.

(** C3: for every input, negative tax bases included, the primary tax that
    [calculate_all] returns is [max(taxable_profit * 0.20,
    turnover_total * 0.03)]: the turnover floor when it is strictly greater
    than 20% of the tax base, and 20% of the tax base otherwise. *)
Theorem ausn_tax_is_max (inp : Inputs F) :
  exists r, calculate_all inp = Ok r
  /\ ausn_tax r =
       py_max (taxable_profit r * lit 0.20) (turnover_total inp * lit 0.03)
  /\ ausn_tax r =
       if turnover_total inp * lit 0.03 >? taxable_profit r * lit 0.20
       then turnover_total inp * lit 0.03
       else taxable_profit r * lit 0.20.
Proof. returned_record. split; reflexivity. Qed.

(** C4: for every payroll total and every override, the white payroll is
    the override when it is present and strictly positive, and
    [payroll_total * 0.33] otherwise (no override, or an override that is not
    strictly positive); it is the white payroll of the derived values. *)
Theorem white_payroll_rule (payroll : F) (override : option F) :
  compute_white_payroll payroll override =
    match override with
    | Some o => if o >? lit 0 then o else payroll * lit 0.33
    | None => payroll * lit 0.33
    end
  /\ forall inp : Inputs F,
       white_payroll (derive_values inp) =
       compute_white_payroll (payroll_total inp) (white_payroll_override inp).
Proof.
  split; [ | reflexivity ].
  destruct override as [o | ]; reflexivity.
Qed.

(** C5: for every input the total tax that [calculate_all] returns is the
    primary tax plus the payroll tax plus the fixed insurance, with no
    rounding step, and the payroll tax is the white payroll times 0.13. *)
Theorem total_tax_is_sum (inp : Inputs F) :
  exists r, calculate_all inp = Ok r
  /\ total_tax r = ausn_tax r + ndfl_tax r + fixed_insurance (derived r)
  /\ ndfl_tax r = white_payroll (derived r) * lit 0.13.
Proof. returned_record. split; reflexivity. Qed.

(** C6: for every input [calculate_all] returns without raising; margin,
    profitability and burden against turnover are the quotients of gross
    profit, pre-tax profit and total tax by the turnover when
    [turnover_total > 0] and [None] otherwise; burden against profit is
    [total_tax / profit_before_tax] when [profit_before_tax > 0] and [None]
    otherwise. *)
Theorem ratios_guarded (inp : Inputs F) :
  exists r, calculate_all inp = Ok r
  /\ margin r =
       (if turnover_total inp >? lit 0
        then Some (div (gross_profit inp) (turnover_total inp)) else None)
  /\ profitability r =
       (if turnover_total inp >? lit 0
        then Some (div (profit_before_tax r) (turnover_total inp)) else None)
  /\ tax_burden_vs_turnover r =
       (if turnover_total inp >? lit 0
        then Some (div (total_tax r) (turnover_total inp)) else None)
  /\ tax_burden_vs_profit r =
       (if profit_before_tax r >? lit 0
        then Some (div (total_tax r) (profit_before_tax r)) else None)
  /\ profit_before_tax r = gross_profit inp - expenses r.
Proof. returned_record. repeat split. Qed.

(** C8: the fixed insurance among the derived values is the constant
    [2900 / 12] for every input, so two calculations return the same one. *)
Theorem fixed_insurance_constant (inp1 inp2 : Inputs F) :
  exists r1 r2, calculate_all inp1 = Ok r1 /\ calculate_all inp2 = Ok r2
  /\ fixed_insurance (derived r1) = div (lit 2900) (lit 12)
  /\ fixed_insurance (derived r1) = fixed_insurance (derived r2).
Proof.
  do 2 eexists.
  split; [ apply calculate_all_returns | ].
  split; [ apply calculate_all_returns | ].
  split; reflexivity.
Qed.

End CoreClaims.

(** ** Exact arithmetic *)

Section ExactArithmetic.

Local Open Scope py_scope.

Lemma exact_lit_positive (q : Q) : (0 < q)%Q -> (0 < Q2Qc q)%Qc.
Proof.
  intros Hq. unfold Qclt. cbn [this Q2Qc].
  rewrite (Qred_correct q). exact Hq.
Qed.

(** With a negative tax base and a turnover that is not negative, the 3%
    floor is the primary tax. *)
Lemma negative_base_floor_dominates (inp : Inputs Qc) :
  (calculate_taxable_profit inp (derive_values inp) < 0)%Qc ->
  (0 <= turnover_total inp)%Qc ->
  exists r, calculate_all inp = Ok r
  /\ ausn_tax r = turnover_total inp * lit 0.03.
Proof.
  intros Hneg Hturn. returned_record.
  unfold py_max.
  set (tp := calculate_taxable_profit inp (derive_values inp)) in *.
  assert (Hbase : (tp * Q2Qc 0.20 < 0)%Qc).
  { rewrite <- (Qcmult_0_l (Q2Qc 0.20)).
    apply Qcmult_lt_compat_r; [ now apply exact_lit_positive | exact Hneg ]. }
  assert (Hfloor : (0 <= turnover_total inp * Q2Qc 0.03)%Qc).
  { rewrite <- (Qcmult_0_l (Q2Qc 0.03)).
    apply Qcmult_le_compat_r; [ exact Hturn | ].
    apply Qclt_le_weak. now apply exact_lit_positive. }
  assert (Hlt : (tp * Q2Qc 0.20 < turnover_total inp * Q2Qc 0.03)%Qc)
    by (eapply Qclt_le_trans; eassumption).
  apply exact_gtb_spec in Hlt. cbn in Hlt |- *. rewrite Hlt. reflexivity.
Qed.

(** An override that is zero or negative is not strictly positive. *)
Lemma exact_nonpositive_override (payroll o : Qc) :
  (o <= 0)%Qc ->
  compute_white_payroll payroll (Some o) = payroll * lit 0.33.
Proof.
  intros Hle. unfold compute_white_payroll.
  destruct (o >? lit 0) eqn:Hgt; [ | reflexivity ].
  apply exact_gtb_spec in Hgt. apply Qcle_not_lt in Hle. contradiction.
Qed.

(** In exact arithmetic the order of the terms does not matter: the total
    of expenses is also the payroll total plus the other raw cost fields plus
    the four derived values. *)
Lemma expenses_exact_any_order (inp : Inputs Qc) :
  exists r, calculate_all inp = Ok r
  /\ expenses r =
       total [payroll_total inp; rent inp; subrent inp; electricity inp;
              other_utilities inp; office_supplies inp;
              other_purchases_outside_opticom inp; write_offs inp;
              meal_compensation inp; other_write_offs inp; security inp;
              internet inp; maintenance inp; other_repairs inp;
              cash_service inp; mobile_connection inp; bank_services inp;
              uniform inp; fiscal_device inp; neo_service inp;
              garbage_cleaning inp; disinfection inp; promo_materials inp;
              inventory_result inp;
              royalty (derived r); aggregator_commission (derived r);
              fixed_insurance (derived r); acquiring (derived r)].
Proof.
  returned_record.
  unfold calculate_expenses.
  cbn -[Q2Qc].
  ring.
Qed.

(** C10, amended: in exact arithmetic, for every input, the tax base minus
    the pre-tax profit is the payroll total minus the white payroll. *)
Theorem tax_base_minus_profit_exact (inp : Inputs Qc) :
  exists r, calculate_all inp = Ok r
  /\ taxable_profit r - profit_before_tax r
     = payroll_total inp - white_payroll (derived r).
Proof.
  returned_record.
  unfold calculate_taxable_profit, calculate_expenses.
  cbn -[compute_white_payroll Q2Qc].
  ring.
Qed.

End ExactArithmetic.

(** ** The validation layer *)

Section SchemasFacts.

Context {F : Type} `{PyFloat F}.

Local Open Scope py_scope.

(** The [raise] of [_aggregator_not_more_than_total] never leaves its
    [try]: the validator returns its argument for every value and every
    state of the validated data. *)
Lemma aggregator_not_more_than_total_returns (v : F) (data : Dict F) :
  _aggregator_not_more_than_total v data = Ok v.
Proof.
  unfold _aggregator_not_more_than_total.
  destruct (dict_get "turnover_total" data) as [[t | | raw] | ]; cbn;
    try reflexivity.
  destruct (v >? t); reflexivity.
Qed.

End SchemasFacts.

(** ** binary64 *)

Section Binary64Facts.

Local Open Scope float_scope.

(** The module constant: the division by [12.0] does not raise, and this is
    its value. *)
Example fixed_insurance_binary64 :
  truediv (lit 2900) (lit 12) = Ok (FIXED_INSURANCE_RUB : float)
  /\ (FIXED_INSURANCE_RUB : float) = 241.66666666666666.
Proof. split; reflexivity. Qed.

(** An override that is zero or negative is not strictly positive. *)
Lemma binary64_nonpositive_override (payroll o : float) :
  (o <=? 0) = true ->
  compute_white_payroll payroll (Some o) = payroll * 0.33.
Proof.
  intros Hle. unfold compute_white_payroll, float_.
  cbn [gt binary64].
  change (@lit float binary64 0) with 0.
  replace (0 <? o) with false; [ reflexivity | ].
  rewrite FloatAxioms.leb_spec in Hle. rewrite FloatAxioms.ltb_spec.
  unfold SFleb, SFltb in *.
  destruct (Prim2SF o) as [s | s | | s m e]; simpl in *;
    try destruct s; simpl in *; congruence.
Qed.

Lemma binary64_nonnegative_not_negative (v : float) :
  (0 <=? v) = true -> (v <? 0) = false.
Proof.
  rewrite FloatAxioms.leb_spec, FloatAxioms.ltb_spec.
  unfold SFleb, SFltb.
  destruct (Prim2SF v) as [s | s | | s m e]; simpl;
    try destruct s; simpl; congruence.
Qed.

(** The validation puts no bound on the aggregator turnover by the total:
    whatever the two are, provided each is [>= 0], the form validates, with
    the payload as the validated data. *)
Lemma validation_ignores_aggregator_bound (turnover gross aggregator : float) :
  (0 <=? turnover) = true ->
  (0 <=? aggregator) = true ->
  let payload :=
    prepare_payload (Scenario.revenue_only turnover gross aggregator) in
  CalcForm payload = inr payload.
Proof.
  intros Hturnover Haggregator.
  pose proof (binary64_nonnegative_not_negative _ Hturnover) as Hturnover'.
  pose proof (binary64_nonnegative_not_negative _ Haggregator) as Haggregator'.
  vm_compute.
  rewrite Hturnover, Hturnover', Haggregator, Haggregator'.
  destruct (turnover <? aggregator); reflexivity.
Qed.

Lemma revenue_only_to_inputs (turnover gross aggregator : float) :
  _to_inputs (prepare_payload (Scenario.revenue_only turnover gross aggregator))
  = Ok (mkInputs turnover gross aggregator 0 0 0 0 0 None
                 0 0 0 0 0 0 0 0 0 0 0 0 0 0 0 0 0 0 0).
Proof. vm_compute. reflexivity. Qed.

(** X19: a form with only its three fields of revenue and profit filled
    in, the two turnovers at least zero, validates; [calculate_all] is run
    on the three values as they are, with every blank cost field read as 0
    and the blank override as [None]. *)
Lemma validated_form_is_calculated (turnover gross aggregator : float) :
  (0 <=? turnover) = true ->
  (0 <=? aggregator) = true ->
  calculate (prepare_payload (Scenario.revenue_only turnover gross aggregator))
  = bind (calculate_all
            (mkInputs turnover gross aggregator 0 0 0 0 0 None
                      0 0 0 0 0 0 0 0 0 0 0 0 0 0 0 0 0 0 0))
         (fun r => Ok (mkContext [] (Some r))).
Proof.
  intros Hturnover Haggregator. unfold calculate.
  rewrite (validation_ignores_aggregator_bound _ gross _ Hturnover Haggregator).
  rewrite revenue_only_to_inputs. reflexivity.
Qed.

Example aggregator_above_total_is_calculated :
  calculate (prepare_payload Scenario.aggregator_above_total)
  = bind (calculate_all
            (mkInputs 100 50 200 0 0 0 0 0 None
                      0 0 0 0 0 0 0 0 0 0 0 0 0 0 0 0 0 0 0))
         (fun r => Ok (mkContext [] (Some r))).
Proof. apply validated_form_is_calculated; reflexivity. Defined.

(** C7: a form with [turnover_total = 100] and [turnover_aggregator = 200]
    passes the validation with no error, and [calculate_all] is run on an
    [Inputs] record whose aggregator turnover exceeds the total turnover. *)
Theorem aggregator_above_total_accepted :
  exists r,
    calculate (prepare_payload Scenario.aggregator_above_total)
    = Ok (mkContext [] (Some r))
    /\ turnover_total (inputs r) = 100
    /\ turnover_aggregator (inputs r) = 200
    /\ (turnover_total (inputs r) <? turnover_aggregator (inputs r)) = true.
Proof. eexists. split; [ vm_compute; reflexivity | ]. repeat split. Qed.

(** *** The sign of a product, and the floor rule on binary64 *)

(** [x] is not NaN and carries the sign [s]. *)
Definition signed (s : bool) (x : spec_float) : Prop :=
  match x with
  | S754_zero s' | S754_infinity s' | S754_finite s' _ _ => s' = s
  | S754_nan => False
  end.

Lemma shr_1_nonneg (mrs : shr_record) :
  (0 <= shr_m mrs)%Z -> (0 <= shr_m (shr_1 mrs))%Z.
Proof.
  destruct mrs as [m r st]. simpl.
  destruct m as [ | [p | p | ] | p ]; simpl; intros Hm; lia.
Qed.

Lemma iter_shr_1_nonneg (p : positive) (mrs : shr_record) :
  (0 <= shr_m mrs)%Z -> (0 <= shr_m (iter_pos shr_1 p mrs))%Z.
Proof.
  revert mrs.
  induction p as [p IH | p IH | ]; intros mrs Hm; simpl.
  - apply IH, IH, shr_1_nonneg, Hm.
  - apply IH, IH, Hm.
  - apply shr_1_nonneg, Hm.
Qed.

Lemma shr_fexp_nonneg (m e : Z) (l : location) :
  (0 <= m)%Z -> (0 <= shr_m (fst (shr_fexp prec emax m e l)))%Z.
Proof.
  intros Hm. unfold shr_fexp, shr.
  assert (Hrec : (0 <= shr_m (shr_record_of_loc m l))%Z)
    by (destruct l as [ | [ | | ] ]; exact Hm).
  destruct (fexp prec emax (Zdigits2 m + e) - e)%Z; simpl;
    [ exact Hrec | apply iter_shr_1_nonneg, Hrec | exact Hrec ].
Qed.

Lemma round_nearest_even_nonneg (m : Z) (l : location) :
  (0 <= m)%Z -> (0 <= round_nearest_even m l)%Z.
Proof.
  intros Hm. unfold round_nearest_even.
  destruct l as [ | [ | | ] ]; try destruct (Z.even m); lia.
Qed.

Lemma binary_round_aux_signed (s : bool) (m e : Z) (l : location) :
  (0 <= m)%Z -> signed s (binary_round_aux prec emax s m e l).
Proof.
  intros Hm. unfold binary_round_aux.
  pose proof (shr_fexp_nonneg m e l Hm) as H1.
  destruct (shr_fexp prec emax m e l) as [mrs1 e1]. simpl in H1.
  pose proof (shr_fexp_nonneg _ e1 loc_Exact
                (round_nearest_even_nonneg _ (loc_of_shr_record mrs1) H1))
    as H2.
  destruct (shr_fexp prec emax
              (round_nearest_even (shr_m mrs1) (loc_of_shr_record mrs1))
              e1 loc_Exact) as [mrs2 e2].
  simpl in H2.
  destruct (shr_m mrs2) as [ | q | q ]; simpl.
  - reflexivity.
  - match goal with |- context [if ?c then _ else _] => destruct c end;
      reflexivity.
  - lia.
Qed.

(** A float times a positive finite float keeps its sign, and a zero times
    it is a zero. *)
Lemma mul_positive_signed (x c : float) (s : bool) (m : positive) (e : Z) :
  Prim2SF c = S754_finite false m e ->
  signed s (Prim2SF x) -> signed s (Prim2SF (x * c)).
Proof.
  intros Hc Hx. rewrite FloatAxioms.mul_spec, Hc.
  unfold SF64mul, SFmul.
  destruct (Prim2SF x) as [sx | sx | | sx mx ex]; simpl in Hx |- *;
    try (subst sx; destruct s; reflexivity); try contradiction.
  subst sx. replace (xorb s false) with s by (destruct s; reflexivity).
  apply binary_round_aux_signed. lia.
Qed.

Lemma mul_positive_zero (x c : float) (s : bool) (m : positive) (e : Z) :
  Prim2SF c = S754_finite false m e ->
  Prim2SF x = S754_zero s -> Prim2SF (x * c) = S754_zero s.
Proof.
  intros Hc Hx. rewrite FloatAxioms.mul_spec, Hc, Hx.
  destruct s; reflexivity.
Qed.

Lemma SFcompare_refl (x : spec_float) :
  x <> S754_nan -> SFcompare x x = Some Eq.
Proof.
  destruct x as [s | s | | s m e]; simpl; intros Hx;
    try congruence; try (destruct s; reflexivity).
  rewrite Z.compare_refl, Pos.compare_cont_refl.
  destruct s; reflexivity.
Qed.

(** X7: on binary64, with a negative tax base and a turnover that is not
    negative, the 3% floor is the primary tax, as a number: Python's [==]
    holds between the two (a base so small that its 20% rounds to [-0.0],
    over a zero turnover, gives [-0.0] where the floor is [0.0]). *)
Lemma binary64_negative_base_floor (inp : Inputs float) :
  (calculate_taxable_profit inp (derive_values inp) <? 0) = true ->
  (0 <=? turnover_total inp) = true ->
  exists r, calculate_all inp = Ok r
  /\ (ausn_tax r =? turnover_total inp * 0.03) = true.
Proof.
  intros Hneg Hturn.
  eexists. split; [ apply calculate_all_returns | ]. cbn [ausn_tax].
  set (tp := calculate_taxable_profit inp (derive_values inp)) in *.
  set (tt := turnover_total inp) in *.
  unfold py_max. cbn [gt mul binary64].
  change (@lit float binary64 0.20) with 0.20.
  change (@lit float binary64 0.03) with 0.03.
  assert (Ha : signed true (Prim2SF (tp * 0.20))).
  { eapply mul_positive_signed; [ vm_compute; reflexivity | ].
    rewrite FloatAxioms.ltb_spec in Hneg. unfold SFltb in Hneg.
    destruct (Prim2SF tp) as [s | s | | s m e]; simpl in Hneg |- *;
      try destruct s; simpl in Hneg; congruence. }
  assert (Hb : signed false (Prim2SF (tt * 0.03))
               \/ exists s, Prim2SF (tt * 0.03) = S754_zero s).
  { rewrite FloatAxioms.leb_spec in Hturn. unfold SFleb in Hturn.
    destruct (Prim2SF tt) as [s | s | | s m e] eqn:Ett.
    - right. exists s.
      eapply mul_positive_zero; [ vm_compute; reflexivity | exact Ett ].
    - left. eapply mul_positive_signed; [ vm_compute; reflexivity | ].
      rewrite Ett. destruct s; simpl in Hturn |- *; congruence.
    - simpl in Hturn. congruence.
    - left. eapply mul_positive_signed; [ vm_compute; reflexivity | ].
      rewrite Ett. destruct s; simpl in Hturn |- *; congruence. }
  rewrite FloatAxioms.ltb_spec. unfold SFltb.
  destruct (SFcompare (Prim2SF (tp * 0.20)) (Prim2SF (tt * 0.03)))
    as [[ | | ] | ] eqn:Ecmp; cbv beta iota.
  - rewrite FloatAxioms.eqb_spec. unfold SFeqb. rewrite Ecmp. reflexivity.
  - rewrite FloatAxioms.eqb_spec. unfold SFeqb.
    rewrite SFcompare_refl; [ reflexivity | ].
    destruct Hb as [Hb | [s Hb]]; [ | rewrite Hb; discriminate ].
    intros Hnan. rewrite Hnan in Hb. exact Hb.
  - exfalso.
    destruct (Prim2SF (tp * 0.20)) as [sa | sa | | sa ma ea]; simpl in Ha;
      try contradiction; subst;
      destruct Hb as [Hb | [s Hb]];
      destruct (Prim2SF (tt * 0.03)) as [sb | sb | | sb mb eb];
      simpl in Hb; try contradiction; try discriminate; subst;
      simpl in Ecmp; congruence.
  - exfalso.
    destruct (Prim2SF (tp * 0.20)) as [sa | sa | | sa ma ea]; simpl in Ha;
      try contradiction;
      destruct Hb as [Hb | [s Hb]];
      destruct (Prim2SF (tt * 0.03)) as [sb | sb | | sb mb eb];
      simpl in Hb; try contradiction; try discriminate;
      simpl in Ecmp; congruence.
Qed.

(** The normal case of the tests has a negative tax base: its primary tax
    is the floor, 3% of 1,000,000. *)
Example normal_case_floor :
  exists r, calculate_all Scenario.normal_case = Ok r
  /\ (ausn_tax r =? turnover_total Scenario.normal_case * 0.03) = true.
Proof. apply binary64_negative_base_floor; reflexivity. Defined.

(** C9: [format_money] and [format_percent] of [None] are the dash, and
    [format_money] of [1000000.0] is the digits in groups of three set apart
    by spaces, with the zero fraction and the decimal point removed. *)
Theorem format_dash_and_million :
  Format.format_money None = "-"%string
  /\ Format.format_percent None = "-"%string
  /\ Format.format_money (Some 1000000) = "1 000 000"%string.
Proof. repeat split. Qed.

(** More of [format_money] and [format_percent]: rounding to two places
    (ties to even on the binary value), a fraction kept, a negative zero. *)
Example format_samples :
  Format.format_comma_2f 1000000 = "1,000,000.00"%string
  /\ Format.format_money (Some 1234.5) = "1 234.5"%string
  /\ Format.format_money (Some 0.125) = "0.12"%string
  /\ Format.format_money (Some 0.375) = "0.38"%string
  /\ Format.format_money (Some 476841.66666666669) = "476 841.67"%string
  /\ Format.format_money (Some (-0.001)) = "-0"%string
  /\ Format.format_percent (Some 0.3) = "30%"%string
  /\ Format.format_percent (Some 0.038821666666666664) = "3.88%"%string.
Proof. repeat split. Qed.

(** C10 as stated fails on binary64: with [payroll_total = 1.0] and every
    other field zero, the tax base minus the pre-tax profit and the payroll
    total minus the white payroll are two different floats. *)
Lemma tax_base_minus_profit_binary64_differs :
  exists r, calculate_all Scenario.payroll_one = Ok r
  /\ taxable_profit r - profit_before_tax r = 0.66999999999998749
  /\ payroll_total Scenario.payroll_one - white_payroll (derived r)
     = 0.66999999999999993
  /\ (taxable_profit r - profit_before_tax r
      =? payroll_total Scenario.payroll_one - white_payroll (derived r))
     = false
  /\ taxable_profit r - profit_before_tax r
     <> payroll_total Scenario.payroll_one - white_payroll (derived r).
Proof.
  eexists. split; [ vm_compute; reflexivity | ].
  repeat split.
  intros E. apply (f_equal Prim2SF) in E. vm_compute in E. discriminate E.
Qed.

End Binary64Facts.

(** * More of the code *)

(** ** The two payrolls of the calculation core *)

Section PayrollSides.

Context {F : Type} `{PyFloat F}.

Local Open Scope py_scope.

(** X1: the white-payroll override is read on the tax side only: whatever
    override replaces the one of the input, [calculate_all] returns the same
    expenses, pre-tax profit, margin and profitability, and the same royalty,
    aggregator commission, fixed insurance and acquiring fee. *)
Theorem override_leaves_accounts (inp : Inputs F) (override : option F) :
  exists r r',
    calculate_all inp = Ok r
    /\ calculate_all (with_override inp override) = Ok r'
    /\ expenses r' = expenses r
    /\ profit_before_tax r' = profit_before_tax r
    /\ margin r' = margin r
    /\ profitability r' = profitability r
    /\ royalty (derived r') = royalty (derived r)
    /\ aggregator_commission (derived r') = aggregator_commission (derived r)
    /\ fixed_insurance (derived r') = fixed_insurance (derived r)
    /\ acquiring (derived r') = acquiring (derived r).
Proof.
  do 2 eexists.
  split; [ apply calculate_all_returns | ].
  split; [ apply calculate_all_returns | ].
  cbn. repeat split.
Qed.

(** X2: under an override that is strictly positive the payroll total is
    read on the accounting side only: whatever payroll total replaces the one
    of the input, [calculate_all] returns the same white payroll, tax base,
    primary tax, payroll tax, total tax and burden against turnover. *)
Theorem payroll_total_leaves_taxes (inp : Inputs F) (o payroll : F) :
  white_payroll_override inp = Some o ->
  (o >? lit 0) = true ->
  exists r r',
    calculate_all inp = Ok r
    /\ calculate_all (with_payroll_total inp payroll) = Ok r'
    /\ white_payroll (derived r') = white_payroll (derived r)
    /\ taxable_profit r' = taxable_profit r
    /\ ausn_tax r' = ausn_tax r
    /\ ndfl_tax r' = ndfl_tax r
    /\ total_tax r' = total_tax r
    /\ tax_burden_vs_turnover r' = tax_burden_vs_turnover r.
Proof.
  intros Hov Hpos.
  do 2 eexists.
  split; [ apply calculate_all_returns | ].
  split; [ apply calculate_all_returns | ].
  assert (Hwp : forall p, compute_white_payroll p (Some o) = o).
  { intros p. unfold compute_white_payroll. rewrite Hpos. reflexivity. }
  assert (Htp : calculate_taxable_profit (with_payroll_total inp payroll)
                  (derive_values (with_payroll_total inp payroll))
                = calculate_taxable_profit inp (derive_values inp)).
  { unfold calculate_taxable_profit, derive_values. cbn.
    rewrite Hov, !Hwp. reflexivity. }
  assert (Hw : white_payroll (derive_values (with_payroll_total inp payroll))
               = white_payroll (derive_values inp)).
  { unfold derive_values. cbn. rewrite Hov, !Hwp. reflexivity. }
  cbn [derived taxable_profit ausn_tax ndfl_tax total_tax
       tax_burden_vs_turnover].
  rewrite Htp, Hw.
  repeat split.
Qed.

End PayrollSides.

(** The override 50,000 of the tests, over a payroll total of 120,000
    replaced by 90,000. *)
Lemma payroll_total_leaves_taxes_witness :
  let inp := with_override Scenario.normal_case (Some 50000%float) in
  white_payroll_override inp = Some 50000%float
  /\ PrimFloat.ltb 0 50000 = true
  /\ exists r r',
       calculate_all inp = Ok r
       /\ calculate_all (with_payroll_total inp 90000%float) = Ok r'
       /\ white_payroll (derived r') = white_payroll (derived r)
       /\ taxable_profit r' = taxable_profit r
       /\ ausn_tax r' = ausn_tax r
       /\ ndfl_tax r' = ndfl_tax r
       /\ total_tax r' = total_tax r
       /\ tax_burden_vs_turnover r' = tax_burden_vs_turnover r.
Proof.
  split; [ reflexivity | ].
  split; [ reflexivity | ].
  apply (payroll_total_leaves_taxes
           (with_override Scenario.normal_case (Some 50000%float))
           50000%float 90000%float); reflexivity.
Defined.

(** ** Orders of magnitude, in exact arithmetic *)

Section ExactBounds.

Local Open Scope py_scope.



End ExactBounds.


Section ExactMagnitudes.

Local Open Scope py_scope.




End ExactMagnitudes.



(** ** The primary tax on binary64 *)

Section PrimaryTaxBinary64.

Local Open Scope float_scope.

Lemma SFcompare_swap (x y : spec_float) (c : comparison) :
  SFcompare x y = Some c -> SFcompare y x = Some (CompOpp c).
Proof.
  destruct x as [sx | sx | | sx mx ex]; destruct y as [sy | sy | | sy my ey];
    simpl; try discriminate;
    try (destruct sx; intros E; injection E as <-; reflexivity);
    try (destruct sy; intros E; injection E as <-; reflexivity);
    try (intros E; injection E as <-; reflexivity).
  - destruct sx, sy; intros E; injection E as <-; reflexivity.
  - intros E; injection E as <-. f_equal.
    pose proof (Pos.compare_cont_antisym mx my Eq) as HP. simpl in HP.
    rewrite (Z.compare_antisym ex ey).
    destruct sx, sy; try reflexivity;
      destruct (ex ?= ey)%Z; simpl; try reflexivity;
      rewrite <- HP; try rewrite CompOpp_involutive; reflexivity.
Qed.

(** [x == x] holds of every float but NaN. *)
Lemma self_equal_signed (x : float) :
  (x =? x) = true -> exists s, signed s (Prim2SF x).
Proof.
  rewrite FloatAxioms.eqb_spec. unfold SFeqb.
  destruct (Prim2SF x) as [s | s | | s m e]; simpl; try discriminate;
    intros _; exists s; reflexivity.
Qed.

Lemma signed_compare (x y : spec_float) (sx sy : bool) :
  signed sx x -> signed sy y -> exists c, SFcompare x y = Some c.
Proof.
  destruct x as [s1 | s1 | | s1 m1 e1]; destruct y as [s2 | s2 | | s2 m2 e2];
    simpl; intros Hx Hy; try contradiction; eexists; reflexivity.
Qed.

(** X6: on binary64, when neither the tax base nor the turnover is NaN, the
    primary tax that [calculate_all] returns is at least 20% of the tax base
    and at least 3% of the turnover. *)
Theorem primary_tax_bounds (inp : Inputs float) :
  let base := calculate_taxable_profit inp (derive_values inp) in
  (base =? base) = true ->
  (turnover_total inp =? turnover_total inp) = true ->
  exists r, calculate_all inp = Ok r
  /\ (base * 0.20 <=? ausn_tax r) = true
  /\ (turnover_total inp * 0.03 <=? ausn_tax r) = true.
Proof.
  intros base Hbase Hturn.
  eexists. split; [ apply calculate_all_returns | ]. cbn [ausn_tax].
  fold base. unfold py_max. cbn [gt mul binary64].
  change (@lit float binary64 0.20) with 0.20.
  change (@lit float binary64 0.03) with 0.03.
  destruct (self_equal_signed _ Hbase) as [sa Ha].
  destruct (self_equal_signed _ Hturn) as [sb Hb].
  eapply (mul_positive_signed base 0.20) in Ha;
    [ | vm_compute; reflexivity ].
  eapply (mul_positive_signed (turnover_total inp) 0.03) in Hb;
    [ | vm_compute; reflexivity ].
  set (a := base * 0.20) in *. set (b := turnover_total inp * 0.03) in *.
  assert (Hna : Prim2SF a <> S754_nan)
    by (intros E; rewrite E in Ha; exact Ha).
  assert (Hnb : Prim2SF b <> S754_nan)
    by (intros E; rewrite E in Hb; exact Hb).
  destruct (signed_compare _ _ _ _ Ha Hb) as [c Hc].
  pose proof (SFcompare_swap _ _ _ Hc) as Hc'.
  rewrite FloatAxioms.ltb_spec. unfold SFltb. rewrite Hc.
  destruct c; cbv beta iota;
    rewrite !FloatAxioms.leb_spec; unfold SFleb;
    rewrite ?Hc, ?Hc', ?(SFcompare_refl _ Hna), ?(SFcompare_refl _ Hnb);
    split; reflexivity.
Qed.

End PrimaryTaxBinary64.

Lemma primary_tax_bounds_witness :
  let base :=
    calculate_taxable_profit Scenario.normal_case
      (derive_values Scenario.normal_case) in
  PrimFloat.eqb base base = true
  /\ PrimFloat.eqb (turnover_total Scenario.normal_case)
       (turnover_total Scenario.normal_case) = true
  /\ exists r, calculate_all Scenario.normal_case = Ok r
       /\ PrimFloat.leb (base * 0.20)%float (ausn_tax r) = true
       /\ PrimFloat.leb (turnover_total Scenario.normal_case * 0.03)%float
            (ausn_tax r) = true.
Proof.
  split; [ reflexivity | ].
  split; [ reflexivity | ].
  apply (primary_tax_bounds Scenario.normal_case); reflexivity.
Defined.

(** ** Presentation: strings *)

Section StringFacts.

Local Open Scope string_scope.

Lemma replace_app (old new : ascii) (s t : string) :
  Format.replace old new (s ++ t)
  = Format.replace old new s ++ Format.replace old new t.
Proof.
  induction s as [ | c s IH ]; simpl; [ reflexivity | ].
  rewrite IH. reflexivity.
Qed.

Lemma contains_app (c : ascii) (s t : string) :
  Format.contains c (s ++ t) = Format.contains c s || Format.contains c t.
Proof.
  induction s as [ | a s IH ]; simpl; [ reflexivity | ].
  rewrite IH. apply orb_assoc.
Qed.

Lemma replace_absent (old new : ascii) (s : string) :
  Format.contains old s = false -> Format.replace old new s = s.
Proof.
  induction s as [ | a s IH ]; simpl; [ reflexivity | ].
  intros Habs. apply orb_false_iff in Habs as [Ha Hs].
  rewrite Ha, (IH Hs). reflexivity.
Qed.

Lemma contains_replace_old (old new : ascii) (s : string) :
  Ascii.eqb new old = false ->
  Format.contains old (Format.replace old new s) = false.
Proof.
  intros Hdiff. induction s as [ | a s IH ]; simpl; [ reflexivity | ].
  rewrite IH. destruct (Ascii.eqb a old) eqn:Ea; rewrite ?Hdiff, ?Ea;
    reflexivity.
Qed.

Lemma contains_replace_other (c old new : ascii) (s : string) :
  Ascii.eqb old c = false -> Ascii.eqb new c = false ->
  Format.contains c (Format.replace old new s) = Format.contains c s.
Proof.
  intros Hold Hnew. induction s as [ | a s IH ]; simpl; [ reflexivity | ].
  rewrite IH. destruct (Ascii.eqb a old) eqn:Ea; [ | reflexivity ].
  apply Ascii.eqb_eq in Ea. subst a. rewrite Hold, Hnew. reflexivity.
Qed.

Lemma contains_rstrip (c d : ascii) (s : string) :
  Format.contains c s = false ->
  Format.contains c (Format.rstrip d s) = false.
Proof.
  induction s as [ | a s IH ]; simpl; [ reflexivity | ].
  intros Habs. apply orb_false_iff in Habs as [Ha Hs].
  specialize (IH Hs).
  destruct (Format.rstrip d s) as [ | b kept ].
  - destruct (Ascii.eqb a d); simpl; rewrite ?Ha; reflexivity.
  - simpl in IH |- *. rewrite Ha. exact IH.
Qed.

Lemma rstrip_cons_other (c a : ascii) (s : string) :
  Ascii.eqb a c = false ->
  Format.rstrip c (String a s) = String a (Format.rstrip c s).
Proof.
  intros Hdiff. simpl. rewrite Hdiff.
  destruct (Format.rstrip c s); reflexivity.
Qed.

Lemma rstrip_snoc (c a : ascii) (s : string) :
  Format.rstrip c (s ++ String a "")
  = if Ascii.eqb a c then Format.rstrip c s else s ++ String a "".
Proof.
  induction s as [ | b s IH ].
  - simpl. destruct (Ascii.eqb a c); reflexivity.
  - change ((String b s) ++ String a "") with (String b (s ++ String a "")).
    cbn [Format.rstrip]. rewrite IH.
    destruct (Ascii.eqb a c); [ reflexivity | ].
    destruct s; reflexivity.
Qed.

Lemma rstrip_keep (c : ascii) (s : string) :
  (forall l, Text.last_char s = Some l -> Ascii.eqb l c = false) ->
  Format.rstrip c s = s.
Proof.
  induction s as [ | a s IH ]; [ reflexivity | ].
  intros Hlast. cbn [Format.rstrip].
  destruct s as [ | b s ].
  - simpl. rewrite (Hlast a eq_refl). reflexivity.
  - rewrite IH; [ reflexivity | ].
    intros l Hl. apply Hlast. exact Hl.
Qed.

Lemma last_char_app (s t : string) :
  t <> "" -> Text.last_char (s ++ t) = Text.last_char t.
Proof.
  intros Ht. induction s as [ | a s IH ]; [ reflexivity | ].
  change ((String a s) ++ t) with (String a (s ++ t)).
  cbn [Text.last_char]. rewrite IH.
  destruct (s ++ t) eqn:E; [ | reflexivity ].
  destruct s; simpl in E; [ contradiction | discriminate ].
Qed.

Lemma last_char_every (p : ascii -> bool) (s : string) :
  Text.every p s = true -> s <> "" ->
  exists l, Text.last_char s = Some l /\ p l = true.
Proof.
  induction s as [ | a s IH ]; [ intros _ Hne; contradiction | ].
  simpl. intros Hall _. apply andb_true_iff in Hall as [Ha Hs].
  destruct s as [ | b s ].
  - exists a. split; [ reflexivity | exact Ha ].
  - apply IH; [ exact Hs | discriminate ].
Qed.

Lemma every_app (p : ascii -> bool) (s t : string) :
  Text.every p (s ++ t) = Text.every p s && Text.every p t.
Proof.
  induction s as [ | a s IH ]; simpl; [ reflexivity | ].
  rewrite IH. apply andb_assoc.
Qed.

Lemma every_absent (p : ascii -> bool) (c : ascii) (s : string) :
  p c = false -> Text.every p s = true -> Format.contains c s = false.
Proof.
  intros Hc. induction s as [ | a s IH ]; simpl; [ reflexivity | ].
  intros Hall. apply andb_true_iff in Hall as [Ha Hs].
  rewrite (IH Hs), orb_false_r.
  destruct (Ascii.eqb a c) eqn:E; [ | reflexivity ].
  apply Ascii.eqb_eq in E. congruence.
Qed.

Lemma remove_app (old : ascii) (s t : string) :
  Form.remove old (s ++ t) = Form.remove old s ++ Form.remove old t.
Proof.
  induction s as [ | a s IH ]; simpl; [ reflexivity | ].
  rewrite IH. destruct (Ascii.eqb a old); reflexivity.
Qed.

Lemma remove_absent (old : ascii) (s : string) :
  Format.contains old s = false -> Form.remove old s = s.
Proof.
  induction s as [ | a s IH ]; simpl; [ reflexivity | ].
  intros Habs. apply orb_false_iff in Habs as [Ha Hs].
  rewrite Ha, (IH Hs). reflexivity.
Qed.

Lemma remove_replace (old new : ascii) (s : string) :
  Format.contains new s = false ->
  Form.remove new (Format.replace old new s) = Form.remove old s.
Proof.
  induction s as [ | a s IH ]; simpl; [ reflexivity | ].
  intros Habs. apply orb_false_iff in Habs as [Ha Hs].
  rewrite (IH Hs).
  destruct (Ascii.eqb a old); [ rewrite Ascii.eqb_refl | rewrite Ha ];
    reflexivity.
Qed.

Lemma contains_remove (old : ascii) (s : string) :
  Format.contains old (Form.remove old s) = false.
Proof.
  induction s as [ | a s IH ]; simpl; [ reflexivity | ].
  destruct (Ascii.eqb a old) eqn:Ea; [ exact IH | ].
  simpl. rewrite Ea, IH. reflexivity.
Qed.

End StringFacts.

(** ** Presentation: digits and groups *)

Section DigitFacts.

Local Open Scope string_scope.

Lemma every_digit_uint (d : Decimal.uint) :
  Text.every Text.is_digit (NilEmpty.string_of_uint d) = true.
Proof. induction d; simpl; try rewrite IHd; reflexivity. Qed.

Lemma digits_of_digits (n : Z) :
  Text.every Text.is_digit (Format.digits_of n) = true.
Proof.
  unfold Format.digits_of, NilZero.string_of_uint.
  pose proof (every_digit_uint (N.to_uint (Z.to_N n))) as Hall.
  destruct (N.to_uint (Z.to_N n)); exact Hall.
Qed.

Lemma digits_of_nonempty (n : Z) : Format.digits_of n <> "".
Proof.
  unfold Format.digits_of, NilZero.string_of_uint.
  destruct (N.to_uint (Z.to_N n)); discriminate.
Qed.

(** One digit for a number below ten. *)
Lemma digits_of_digit (k : Z) :
  (0 <= k < 10)%Z ->
  Format.digits_of k = String (ascii_of_nat (48 + Z.to_nat k)) "".
Proof.
  intros Hk.
  assert (Hcases : (k = 0 \/ k = 1 \/ k = 2 \/ k = 3 \/ k = 4 \/ k = 5
                    \/ k = 6 \/ k = 7 \/ k = 8 \/ k = 9)%Z) by lia.
  repeat (destruct Hcases as [E | Hcases]; [ rewrite E; reflexivity | ]).
  rewrite Hcases. reflexivity.
Qed.

Lemma every_group (p : ascii -> bool) (s : string) :
  p ","%char = true -> Text.every p s = true ->
  Text.every p (Format.group_thousands s) = true.
Proof.
  intros Hcomma. induction s as [ | a s IH ]; [ reflexivity | ].
  cbn [Format.group_thousands Text.every].
  intros Hall. apply andb_true_iff in Hall as [Ha Hs].
  rewrite Ha. cbn [andb].
  destruct ((0 <? String.length s) && (String.length s mod 3 =? 0))%nat;
    cbn [Text.every]; rewrite ?Hcomma, (IH Hs); reflexivity.
Qed.

Lemma group_nonempty (s : string) :
  s <> "" -> Format.group_thousands s <> "".
Proof. destruct s; [ contradiction | discriminate ]. Qed.

Lemma last_char_group (s : string) :
  Text.last_char (Format.group_thousands s) = Text.last_char s.
Proof.
  induction s as [ | a s IH ]; [ reflexivity | ].
  cbn [Format.group_thousands].
  destruct s as [ | b s ]; [ reflexivity | ].
  set (rest := String b s) in *.
  assert (Hne : Format.group_thousands rest <> "")
    by (apply group_nonempty; discriminate).
  destruct ((0 <? String.length rest) && (String.length rest mod 3 =? 0))%nat.
  - change (Text.last_char
              (String a (String "," (Format.group_thousands rest))))
      with (Text.last_char (Format.group_thousands rest)).
    rewrite IH. reflexivity.
  - destruct (Format.group_thousands rest) as [ | c g ] eqn:Eg;
      [ contradiction | ].
    change (Text.last_char (String a (String c g)))
      with (Text.last_char (String c g)).
    rewrite IH. reflexivity.
Qed.

(** Taking the commas out of a grouped string of digits gives the digits
    back, for every string that holds no comma itself. *)
Lemma group_thousands_ungroup (s : string) :
  Format.contains "," s = false ->
  Form.remove "," (Format.group_thousands s) = s.
Proof.
  induction s as [ | a s IH ]; [ reflexivity | ].
  cbn [Format.contains Format.group_thousands Form.remove].
  intros Habs. apply orb_false_iff in Habs as [Ha Hs].
  rewrite Ha.
  destruct ((0 <? String.length s) && (String.length s mod 3 =? 0))%nat;
    cbn [Form.remove]; rewrite ?Ascii.eqb_refl, (IH Hs); reflexivity.
Qed.

Lemma spaced_ungroup (n : Z) :
  Form.remove " " (Text.spaced (Format.digits_of n)) = Format.digits_of n.
Proof.
  unfold Text.spaced.
  pose proof (digits_of_digits n) as Hd.
  rewrite remove_replace.
  - apply group_thousands_ungroup.
    apply (every_absent Text.is_digit); [ reflexivity | exact Hd ].
  - apply (every_absent (fun c => Text.is_digit c || Ascii.eqb c ","));
      [ reflexivity | ].
    apply every_group; [ reflexivity | ].
    clear -Hd. induction (Format.digits_of n) as [ | a s IH ];
      [ reflexivity | ].
    simpl in Hd |- *. apply andb_true_iff in Hd as [Ha Hs].
    rewrite Ha, (IH Hs). reflexivity.
Qed.

Lemma spaced_last_digit (n : Z) :
  exists l, Text.last_char (Text.spaced (Format.digits_of n)) = Some l
            /\ Text.is_digit l = true.
Proof.
  destruct (last_char_every _ _ (digits_of_digits n) (digits_of_nonempty n))
    as [l [Hl Hd]].
  exists l. split; [ | exact Hd ].
  unfold Text.spaced.
  assert (Hrep : forall s, Text.last_char (Format.replace "," " " s)
                 = option_map (fun c => if Ascii.eqb c "," then " "%char else c)
                     (Text.last_char s)).
  { induction s as [ | a s IH ]; [ reflexivity | ].
    destruct s as [ | b s ]; [ reflexivity | ].
    change (Format.replace "," " " (String a (String b s)))
      with (String (if Ascii.eqb a "," then " "%char else a)
              (Format.replace "," " " (String b s))).
    change (Text.last_char (String a (String b s)))
      with (Text.last_char (String b s)).
    rewrite <- IH. reflexivity. }
  rewrite Hrep, last_char_group, Hl. simpl.
  destruct (Ascii.eqb l ",") eqn:E; [ | reflexivity ].
  apply Ascii.eqb_eq in E. subst l. discriminate Hd.
Qed.

End DigitFacts.

(** ** Presentation: [format_money] and [format_percent] on every float *)

Section FormatFacts.

Local Open Scope string_scope.

Lemma append_assoc (s t u : string) : (s ++ t) ++ u = s ++ (t ++ u).
Proof.
  induction s as [ | a s IH ]; simpl; [ reflexivity | ].
  rewrite IH. reflexivity.
Qed.

Lemma append_nil_r (s : string) : s ++ "" = s.
Proof.
  induction s as [ | a s IH ]; simpl; [ reflexivity | ].
  rewrite IH. reflexivity.
Qed.

(** What [replace(",", " ")] makes of [f"{value:,.2f}"] for a finite float
    that is not zero. *)
Lemma rounded_finite (v : float) (s : bool) (m : positive) (e : Z) :
  Prim2SF v = S754_finite s m e ->
  let h := Format.hundredths m e in
  Format.replace "," " " (Format.format_comma_2f v)
  = (Text.sign_of s ++ Text.spaced (Format.digits_of (h / 100)))
    ++ String "."
         (Format.digits_of ((h mod 100) / 10)
          ++ Format.digits_of ((h mod 100) mod 10)).
Proof.
  intros Hv h. unfold Format.format_comma_2f. rewrite Hv. fold h.
  rewrite !replace_app. unfold Text.spaced, Format.two_digits.
  rewrite append_assoc. f_equal; [ destruct s; reflexivity | ].
  f_equal.
  cbn [append Format.replace]. f_equal.
  apply replace_absent.
  apply (every_absent Text.is_digit); [ reflexivity | ].
  rewrite every_app, !digits_of_digits. reflexivity.
Qed.

Lemma contains_dot_rounded (P T : string) :
  Format.contains "." (P ++ String "." T) = true.
Proof.
  rewrite contains_app. cbn [Format.contains].
  rewrite Ascii.eqb_refl. cbn [orb]. apply orb_true_r.
Qed.

Lemma snoc3 (P : string) (x y z : ascii) :
  P ++ String x (String y (String z ""))
  = ((P ++ String x "") ++ String y "") ++ String z "".
Proof. rewrite !append_assoc. reflexivity. Qed.

Lemma snoc2 (P : string) (x y : ascii) :
  P ++ String x (String y "") = (P ++ String x "") ++ String y "".
Proof. rewrite !append_assoc. reflexivity. Qed.

(** The two [rstrip] calls on a grouped amount with its two decimals. *)
Lemma trimmed_two_decimals (P : string) (x : Z) :
  (0 <= x < 100)%Z ->
  (forall l, Text.last_char P = Some l -> Ascii.eqb l "." = false) ->
  Format.rstrip "."
    (Format.rstrip "0"
       (P ++ String "."
               (Format.digits_of (x / 10) ++ Format.digits_of (x mod 10))))
  = P ++ Text.fraction x.
Proof.
  intros Hx HP.
  assert (Hdm : x = (10 * (x / 10) + x mod 10)%Z) by (apply Z.div_mod; lia).
  assert (Ha : (0 <= x / 10 < 10)%Z)
    by (split; [ apply Z.div_pos; lia | apply Z.div_lt_upper_bound; lia ]).
  assert (Hb : (0 <= x mod 10 < 10)%Z) by (apply Z.mod_pos_bound; lia).
  unfold Text.fraction.
  remember (x / 10)%Z as a eqn:Ea. remember (x mod 10)%Z as b eqn:Eb.
  rewrite Hdm. clear Hdm Ea Eb Hx x.
  assert (Ca : (a = 0 \/ a = 1 \/ a = 2 \/ a = 3 \/ a = 4 \/ a = 5
                \/ a = 6 \/ a = 7 \/ a = 8 \/ a = 9)%Z) by lia.
  assert (Cb : (b = 0 \/ b = 1 \/ b = 2 \/ b = 3 \/ b = 4 \/ b = 5
                \/ b = 6 \/ b = 7 \/ b = 8 \/ b = 9)%Z) by lia.
  clear Ha Hb.
  assert (Hstrip : Format.rstrip "." P = P) by (apply rstrip_keep; exact HP).
  repeat (destruct Ca as [Ca | Ca]; [ | ]);
    repeat (destruct Cb as [Cb | Cb]; [ | ]);
    subst a b;
    repeat match goal with
           | |- context [Format.digits_of ?k] =>
               let d := eval vm_compute in (Format.digits_of k) in
               change (Format.digits_of k) with d
           end;
    repeat match goal with
           | |- context [(?n =? 0)%Z] =>
               let t := eval vm_compute in (n =? 0)%Z in
               change (n =? 0)%Z with t
           end;
    cbv beta iota; cbn [append];
    rewrite ?snoc3; rewrite ?snoc2;
    repeat (rewrite rstrip_snoc;
            match goal with
            | |- context [Ascii.eqb ?p ?q] =>
                let t := eval vm_compute in (Ascii.eqb p q) in
                change (Ascii.eqb p q) with t
            end; cbv beta iota);
    rewrite ?Hstrip, ?append_nil_r; reflexivity.
Qed.

(** The trimmed text of a finite amount: the sign, the grouped digits of
    the whole hundredths, and what is left of the fraction. *)
Lemma trimmed_finite (v : float) (s : bool) (m : positive) (e : Z) :
  Prim2SF v = S754_finite s m e ->
  let h := Format.hundredths m e in
  let rounded := Format.replace "," " " (Format.format_comma_2f v) in
  Format.contains "." rounded = true
  /\ Format.rstrip "." (Format.rstrip "0" rounded)
     = Text.sign_of s ++ Text.spaced (Format.digits_of (h / 100))
       ++ Text.fraction (h mod 100).
Proof.
  intros Hv h rounded. unfold rounded.
  rewrite (rounded_finite v s m e Hv). fold h.
  split; [ apply contains_dot_rounded | ].
  rewrite trimmed_two_decimals.
  - apply append_assoc.
  - apply Z.mod_pos_bound. lia.
  - intros l Hl.
    destruct (spaced_last_digit (h / 100)) as [d [Hd Hdigit]].
    rewrite last_char_app in Hl.
    + rewrite Hd in Hl. injection Hl as <-.
      destruct (Ascii.eqb d ".") eqn:E; [ | reflexivity ].
      apply Ascii.eqb_eq in E. subst d. discriminate Hdigit.
    + intros Hempty. rewrite Hempty in Hd. discriminate Hd.
Qed.

End FormatFacts.

Section FormatProperties.

Local Open Scope string_scope.

(** X8: for a finite float that is not zero, of sign [s] and rounded to [h]
    hundredths, [format_money] returns the minus sign if [s], the digits of
    the whole part in groups of three set apart by spaces, and the fraction
    with its trailing zeros dropped: nothing when the hundredths are a whole
    number, a dot and one digit when they are a whole number of tenths, a dot
    and two digits otherwise. *)
Theorem format_money_finite (v : float) (s : bool) (m : positive) (e : Z) :
  Prim2SF v = S754_finite s m e ->
  let h := Format.hundredths m e in
  Format.format_money (Some v)
  = Text.sign_of s ++ Text.spaced (Format.digits_of (h / 100))
    ++ Text.fraction (h mod 100).
Proof.
  intros Hv h. unfold Format.format_money.
  destruct (trimmed_finite v s m e Hv) as [Hdot Htrim].
  rewrite Hdot. exact Htrim.
Qed.

Lemma every_weaken (p q : ascii -> bool) (s : string) :
  (forall c, p c = true -> q c = true) ->
  Text.every p s = true -> Text.every q s = true.
Proof.
  intros Hpq. induction s as [ | a s IH ]; simpl; [ reflexivity | ].
  intros Hall. apply andb_true_iff in Hall as [Ha Hs].
  rewrite (Hpq a Ha), (IH Hs). reflexivity.
Qed.

Lemma fraction_chars (x : Z) :
  Text.every (fun c => Text.is_digit c || Ascii.eqb c ".") (Text.fraction x)
  = true.
Proof.
  assert (Hd : forall n,
             Text.every (fun c => Text.is_digit c || Ascii.eqb c ".")
               (Format.digits_of n) = true).
  { intros n. apply (every_weaken Text.is_digit); [ | apply digits_of_digits ].
    intros c Hc. rewrite Hc. reflexivity. }
  unfold Text.fraction.
  destruct (x =? 0)%Z; [ reflexivity | ].
  destruct (x mod 10 =? 0)%Z;
    cbn [append Text.every]; rewrite ?every_app, !Hd; reflexivity.
Qed.

(** X9: what [format_money] shows of a finite amount can be typed back into
    the form: the clean-up of a field's text before [float()] takes the
    spaces out and leaves the sign, the digits of the whole part and the
    trimmed fraction, with no comma in it. *)
Theorem format_money_typed_back (v : float) (s : bool) (m : positive) (e : Z) :
  Prim2SF v = S754_finite s m e ->
  let h := Format.hundredths m e in
  Form.clean (Format.format_money (Some v))
  = Text.sign_of s ++ Format.digits_of (h / 100) ++ Text.fraction (h mod 100).
Proof.
  intros Hv h. unfold Format.format_money, Form.clean.
  destruct (trimmed_finite v s m e Hv) as [Hdot Htrim].
  rewrite Hdot, Htrim. fold h.
  rewrite !remove_app, spaced_ungroup.
  assert (Hsign : Form.remove " " (Text.sign_of s) = Text.sign_of s)
    by (destruct s; reflexivity).
  assert (Hfrac : Form.remove " " (Text.fraction (h mod 100))
                  = Text.fraction (h mod 100)).
  { apply remove_absent.
    apply (every_absent (fun c => Text.is_digit c || Ascii.eqb c "."));
      [ reflexivity | apply fraction_chars ]. }
  rewrite Hsign, Hfrac.
  apply replace_absent.
  rewrite !contains_app.
  assert (Hs : Format.contains "," (Text.sign_of s) = false)
    by (destruct s; reflexivity).
  rewrite Hs.
  rewrite (every_absent Text.is_digit "," _ eq_refl (digits_of_digits _)).
  rewrite (every_absent _ "," _ eq_refl (fraction_chars _)).
  reflexivity.
Qed.

(** X10: for every float, [format_percent] is [format_money] of a hundred
    times the value, with a percent sign after it. *)
Theorem format_percent_is_format_money (v : float) :
  Format.format_percent (Some v)
  = Format.format_money (Some (v * 100)%float) ++ "%".
Proof.
  unfold Format.format_percent, Format.format_money.
  set (p := (v * 100)%float).
  destruct (Format.contains "."
              (Format.replace "," " " (Format.format_comma_2f p))) eqn:Hdot;
    [ reflexivity | ].
  f_equal. revert Hdot. unfold Format.format_comma_2f.
  destruct (Prim2SF p) as [s | s | | s m e] eqn:Hp.
  - destruct s; discriminate.
  - destruct s; reflexivity.
  - reflexivity.
  - intros Hdot. exfalso.
    pose proof (rounded_finite p s m e Hp) as Hr. cbv zeta in Hr.
    unfold Format.format_comma_2f in Hr. rewrite Hp in Hr.
    rewrite Hr, contains_dot_rounded in Hdot. discriminate Hdot.
Qed.

(** X11: no text that [format_money] or [format_percent] returns holds a
    comma, which the form would read as a decimal separator. *)
Theorem formatted_without_comma (value : option float) :
  Format.contains "," (Format.format_money value) = false
  /\ Format.contains "," (Format.format_percent value) = false.
Proof.
  destruct value as [v | ]; [ | split; reflexivity ].
  assert (Hr : forall x,
             Format.contains ","
               (Format.replace "," " " (Format.format_comma_2f x)) = false)
    by (intros x; apply contains_replace_old; reflexivity).
  split.
  - unfold Format.format_money.
    destruct (Format.contains "." _);
      [ apply contains_rstrip, contains_rstrip | ]; apply Hr.
  - unfold Format.format_percent.
    rewrite contains_app, contains_rstrip; [ reflexivity | ].
    apply contains_rstrip, Hr.
Qed.

(** X12: for every float that is strictly positive, infinity included,
    [format_money] of its opposite is a minus sign before [format_money] of
    the float itself, also when the amount rounds to zero. *)
Theorem format_money_opposite (v : float) :
  (0 <? v)%float = true ->
  Format.format_money (Some (- v)%float)
  = "-" ++ Format.format_money (Some v).
Proof.
  intros Hpos.
  rewrite FloatAxioms.ltb_spec in Hpos. unfold SFltb in Hpos.
  change (Prim2SF 0) with (S754_zero false) in Hpos.
  unfold Format.format_money, Format.format_comma_2f.
  rewrite FloatAxioms.opp_spec.
  destruct (Prim2SF v) as [s | s | | s m e]; simpl in Hpos;
    try discriminate; destruct s; try discriminate; cbn [SFopp negb].
  - reflexivity.
  - cbn [append Format.replace Format.contains].
    change (Ascii.eqb "-" ",") with false.
    change (Ascii.eqb "-" ".") with false.
    cbv beta iota. cbn [orb].
    set (r := Format.replace "," " " _).
    destruct (Format.contains "." r); [ | reflexivity ].
    rewrite !rstrip_cons_other by reflexivity. reflexivity.
Qed.

End FormatProperties.

Lemma format_money_finite_witness :
  Prim2SF 1234.5%float = S754_finite false 5429388417957888 (-42)
  /\ Format.format_money (Some 1234.5%float) = "1 234.5"%string.
Proof.
  split; [ vm_compute; reflexivity | ].
  exact (format_money_finite 1234.5%float false 5429388417957888 (-42)
           ltac:(vm_compute; reflexivity)).
Defined.

Lemma format_money_typed_back_witness :
  Prim2SF 1000000%float = S754_finite false 8589934592000000 (-33)
  /\ Form.clean (Format.format_money (Some 1000000%float)) = "1000000"%string.
Proof.
  split; [ vm_compute; reflexivity | ].
  exact (format_money_typed_back 1000000%float false 8589934592000000 (-33)
           ltac:(vm_compute; reflexivity)).
Defined.

Lemma format_money_opposite_witness :
  PrimFloat.ltb 0 0.001 = true
  /\ Format.format_money (Some (- 0.001)%float)
     = ("-" ++ Format.format_money (Some 0.001%float))%string.
Proof.
  split; [ reflexivity | ].
  apply (format_money_opposite 0.001%float). reflexivity.
Defined.

(** ** The validation layer, for every payload *)

Section ValidationFacts.

Context {F : Type} `{PyFloat F}.

Local Open Scope string_scope.
Local Open Scope py_scope.

(** The validators of a field return the value they are given, when they
    return. *)
Lemma run_validators_returns (name : string) (x x' : F) (data : Dict F) :
  run_validators (field_validators name) x data = Ok x' -> x' = x.
Proof.
  unfold field_validators.
  destruct (String.eqb name "turnover_aggregator");
    [ | destruct (String.eqb name "turnover_total");
        [ | destruct (String.eqb name "gross_profit") ] ];
    cbn [run_validators bind ret].
  - unfold _aggregator_not_negative.
    destruct (x <? lit 0); cbn [run_validators bind ret]; [ discriminate | ].
    rewrite aggregator_not_more_than_total_returns. cbn [run_validators bind ret].
    unfold ret. congruence.
  - unfold _turnover_non_negative.
    destruct (x <? lit 0); cbn [run_validators bind ret]; [ discriminate | unfold ret; congruence ].
  - unfold _gross_profit_number, float_. cbn [run_validators bind ret]. unfold ret. congruence.
  - unfold ret. congruence.
Qed.

Lemma validate_annotation_same (fi : FieldInfo) (given v : PyVal F) :
  validate_annotation fi given = inr v -> v = given.
Proof.
  unfold validate_annotation.
  destruct given as [x | | raw]; [ | | discriminate ].
  - destruct (fi_ge0 fi); [ destruct (x >=? lit 0) | ]; congruence.
  - destruct (fi_annotation fi); congruence.
Qed.

Lemma validate_field_result (fi : FieldInfo) (payload data : Dict F)
    (v : PyVal F) :
  validate_field fi payload data = inr v -> field_result fi payload v.
Proof.
  unfold validate_field, field_result.
  destruct (dict_get (fi_name fi) payload) as [given | ].
  - destruct (validate_annotation fi given) as [err | v0] eqn:E;
      [ discriminate | ].
    pose proof (validate_annotation_same _ _ _ E) as ->.
    destruct given as [x | | raw]; try (intros [= <-]; reflexivity).
    destruct (run_validators (field_validators (fi_name fi)) x data)
      as [x' | exc] eqn:R; [ | discriminate ].
    apply run_validators_returns in R. subst x'.
    intros [= <-]. reflexivity.
  - destruct (fi_default fi) as [dflt | ]; [ | discriminate ].
    intros [= <-]. reflexivity.
Qed.

(** Errors are only added to. *)
Lemma validate_fields_errors (fields : list FieldInfo)
    (payload data : Dict F) (errs : list (string * FieldError)) :
  snd (validate_fields fields payload data errs)
  = (errs ++ snd (validate_fields fields payload data []))%list.
Proof.
  revert data errs.
  induction fields as [ | fi rest IH ]; intros data errs;
    cbn [validate_fields snd].
  - symmetry. apply app_nil_r.
  - destruct (validate_field fi payload data) as [err | v].
    + rewrite IH. rewrite (IH data ([] ++ [(fi_name fi, err)])%list).
      cbn [app]. rewrite <- app_assoc. reflexivity.
    + apply IH.
Qed.

(** When no error is reported, the validated data are the data so far and
    then, field by field, what each field passes. *)
Lemma validate_fields_success (fields : list FieldInfo)
    (payload data data' : Dict F) :
  validate_fields fields payload data [] = (data', []) ->
  exists l,
    data' = (data ++ l)%list
    /\ Forall2 (fun fi kv => fst kv = fi_name fi
                             /\ field_result fi payload (snd kv))
         fields l.
Proof.
  revert data.
  induction fields as [ | fi rest IH ]; intros data;
    cbn [validate_fields].
  - intros [= <-]. exists []. split; [ symmetry; apply app_nil_r | ].
    constructor.
  - destruct (validate_field fi payload data) as [err | v] eqn:E.
    + intros Hrun. exfalso.
      pose proof (validate_fields_errors rest payload data
                    ([] ++ [(fi_name fi, err)])%list) as Herr.
      rewrite Hrun in Herr. discriminate Herr.
    + intros Hrun. destruct (IH _ Hrun) as [l [Hdata Hall]].
      exists ((fi_name fi, v) :: l). split.
      * rewrite Hdata. unfold dict_set. rewrite <- app_assoc. reflexivity.
      * constructor; [ | exact Hall ].
        split; [ reflexivity | ].
        apply (validate_field_result fi payload data). exact E.
Qed.

(** Looking a field up in such data finds what the field passed. *)
Lemma dict_get_validated (fields : list FieldInfo) (payload l : Dict F)
    (fi : FieldInfo) :
  NoDup (map fi_name fields) ->
  Forall2 (fun fi kv => fst kv = fi_name fi
                        /\ field_result fi payload (snd kv))
    fields l ->
  In fi fields ->
  exists v, dict_get (fi_name fi) l = Some v /\ field_result fi payload v.
Proof.
  intros Hnodup Hall. revert Hnodup.
  induction Hall as [ | fi0 [k v0] rest l' [Hk Hv] Hrest IH ];
    intros Hnodup Hin; [ contradiction | ].
  cbn [fst snd] in Hk, Hv. subst k.
  cbn [map] in Hnodup. apply NoDup_cons_iff in Hnodup as [Hfresh Hnodup].
  cbn [dict_get].
  destruct Hin as [-> | Hin].
  - rewrite String.eqb_refl. exists v0. split; [ reflexivity | exact Hv ].
  - destruct (String.eqb (fi_name fi0) (fi_name fi)) eqn:E.
    + exfalso. apply String.eqb_eq in E. apply Hfresh. rewrite E.
      apply in_map. exact Hin.
    + apply IH; assumption.
Qed.

Lemma model_fields_names_distinct :
  NoDup (map (@fi_name F) model_fields).
Proof.
  cbn [map model_fields fi_name].
  repeat (apply NoDup_cons; [ cbn [In]; intuition discriminate | ]).
  apply NoDup_nil.
Qed.

End ValidationFacts.

Section ValidatedData.

Context {F : Type} `{PyFloat F}.

Local Open Scope string_scope.
Local Open Scope py_scope.

Variables (payload l : Dict F).

Hypothesis validated :
  Forall2 (fun fi kv => fst kv = fi_name fi
                        /\ field_result fi payload (snd kv))
    model_fields l.

(** A field annotated [float] reads as a float in the validated data, within
    its bound (or as its default 0). *)
Lemma attr_validated (name : string) (dflt : option (PyVal F)) (ge0 : bool) :
  In (mkField name Float dflt ge0) model_fields ->
  dflt = None \/ dflt = Some (VFloat (lit 0)) ->
  exists x, attr name l = Ok x
            /\ (ge0 = true -> (x >=? lit 0) = true \/ x = lit 0).
Proof.
  intros Hin Hdflt.
  destruct (dict_get_validated _ _ _ _ model_fields_names_distinct
              validated Hin) as [v [Hget Hres]].
  cbn [fi_name] in Hget. unfold attr. rewrite Hget.
  unfold field_result in Hres. cbn [fi_name fi_default] in Hres.
  destruct (dict_get name payload) as [given | ].
  - pose proof (validate_annotation_same _ _ _ Hres) as ->.
    unfold validate_annotation in Hres.
    cbn [fi_ge0 fi_annotation] in Hres.
    destruct given as [x | | raw]; try discriminate.
    exists x. split; [ reflexivity | ].
    intros ->. destruct (x >=? lit 0); [ left; reflexivity | discriminate ].
  - destruct Hdflt as [-> | ->]; [ discriminate | ].
    injection Hres as <-. exists (lit 0).
    split; [ reflexivity | intros _; right; reflexivity ].
Qed.

(** The override reads as a float within its bound or as [None]. *)
Lemma attr_optional_validated (name : string) :
  In (mkField name OptionalFloat (Some VNone) true) model_fields ->
  exists o, attr_optional name l = Ok o
            /\ match o with
               | Some x => (x >=? lit 0) = true
               | None => True
               end.
Proof.
  intros Hin.
  destruct (dict_get_validated _ _ _ _ model_fields_names_distinct
              validated Hin) as [v [Hget Hres]].
  cbn [fi_name] in Hget. unfold attr_optional. rewrite Hget.
  unfold field_result in Hres. cbn [fi_name fi_default] in Hres.
  destruct (dict_get name payload) as [given | ].
  - pose proof (validate_annotation_same _ _ _ Hres) as ->.
    unfold validate_annotation in Hres.
    cbn [fi_ge0 fi_annotation] in Hres.
    destruct given as [x | | raw]; try discriminate.
    + exists (Some x). split; [ reflexivity | ].
      destruct (x >=? lit 0); [ reflexivity | discriminate ].
    + exists None. split; reflexivity.
  - injection Hres as <-. exists None. split; reflexivity.
Qed.

End ValidatedData.

Ltac field_of_model :=
  cbn [model_fields In zero_default]; repeat (try (left; reflexivity); right).

Ltac read_validated payload l Hall :=
  repeat match goal with
         | |- context [attr ?n l] =>
             let x := fresh "x" in
             let Hx := fresh "Hx" in
             let Hb := fresh "Hb" in
             edestruct (attr_validated payload l Hall n) as [x [Hx Hb]];
             [ field_of_model
             | first [ left; reflexivity | right; reflexivity ]
             | rewrite Hx; cbn [bind] ]
         | |- context [attr_optional ?n l] =>
             let o := fresh "o" in
             let Ho := fresh "Ho" in
             let Hb := fresh "Hb" in
             edestruct (attr_optional_validated payload l Hall n)
               as [o [Ho Hb]];
             [ field_of_model | rewrite Ho; cbn [bind] ]
         end.

Section ValidatedInputs.

Context {F : Type} `{PyFloat F}.

Local Open Scope string_scope.
Local Open Scope py_scope.

(** [_to_inputs] of validated data returns, and what it returns is within
    the bounds of the form. *)
Lemma to_inputs_validated (payload l : Dict F) :
  Forall2 (fun fi kv => fst kv = fi_name fi
                        /\ field_result fi payload (snd kv))
    model_fields l ->
  exists inp,
    _to_inputs l = Ok inp
    /\ Forall (fun x => (x >=? lit 0) = true \/ x = lit 0) (bounded_fields inp)
    /\ match white_payroll_override inp with
       | Some x => (x >=? lit 0) = true
       | None => True
       end.
Proof.
  intros Hall. unfold _to_inputs.
  read_validated payload l Hall.
  eexists. split; [ reflexivity | ].
  cbn [bounded_fields white_payroll_override turnover_total
       turnover_aggregator rent electricity other_utilities payroll_total
       office_supplies other_purchases_outside_opticom write_offs
       meal_compensation other_write_offs security internet maintenance
       other_repairs cash_service mobile_connection bank_services uniform
       fiscal_device neo_service garbage_cleaning disinfection
       promo_materials].
  split; [ | assumption ].
  repeat (apply Forall_cons; [ auto | ]). apply Forall_nil.
Qed.

Lemma CalcForm_accepts (payload data : Dict F) :
  CalcForm payload = inr data ->
  Forall2 (fun fi kv => fst kv = fi_name fi
                        /\ field_result fi payload (snd kv))
    model_fields data.
Proof.
  unfold CalcForm.
  destruct (validate_fields model_fields payload [] []) as [d errs] eqn:V.
  destruct errs as [ | err errs ]; [ | discriminate ].
  intros [= <-].
  destruct (validate_fields_success _ _ _ _ V) as [l [-> Hall]].
  exact Hall.
Qed.

Lemma CalcForm_rejects (payload : Dict F) (errs : list (string * FieldError)) :
  CalcForm payload = inl errs ->
  errs <> [] /\ errs = snd (validate_fields model_fields payload [] []).
Proof.
  unfold CalcForm.
  destruct (validate_fields model_fields payload [] []) as [d es].
  destruct es as [ | err es ]; [ discriminate | ].
  intros [= <-]. split; [ discriminate | reflexivity ].
Qed.

End ValidatedInputs.

Section HandlerProperties.

Context {F : Type} `{PyFloat F}.

Local Open Scope string_scope.
Local Open Scope py_scope.

(** X13: for every payload the [try] block of the POST handler ends without
    an exception of its own: either the validation reports at least one
    error and there are no results, or it reports none and there are
    results. *)
Theorem handler_never_raises (payload : Dict F) :
  exists ctx,
    calculate payload = Ok ctx
    /\ ((errors ctx <> [] /\ results ctx = None)
        \/ (errors ctx = [] /\ exists r, results ctx = Some r)).
Proof.
  unfold calculate.
  destruct (CalcForm payload) as [errs | data] eqn:C.
  - eexists. split; [ reflexivity | ]. left.
    split; [ apply (CalcForm_rejects payload errs C) | reflexivity ].
  - destruct (to_inputs_validated payload data (CalcForm_accepts _ _ C))
      as [inp [Hinp _]].
    rewrite Hinp. cbn [bind]. rewrite calculate_all_returns. cbn [bind].
    eexists. split; [ reflexivity | ]. right.
    split; [ reflexivity | eexists; reflexivity ].
Qed.

Lemma dict_get_map (fields : list (@FieldInfo F)) (val : @FieldInfo F -> PyVal F)
    (fi : @FieldInfo F) :
  NoDup (map fi_name fields) -> In fi fields ->
  dict_get (fi_name fi) (map (fun f => (fi_name f, val f)) fields)
  = Some (val fi).
Proof.
  induction fields as [ | f rest IH ]; intros Hnodup Hin; [ contradiction | ].
  cbn [map] in Hnodup. apply NoDup_cons_iff in Hnodup as [Hfresh Hnodup].
  cbn [map dict_get].
  destruct Hin as [-> | Hin]; [ rewrite String.eqb_refl; reflexivity | ].
  destruct (String.eqb (fi_name f) (fi_name fi)) eqn:E; [ | auto ].
  exfalso. apply String.eqb_eq in E. apply Hfresh. rewrite E.
  apply in_map. exact Hin.
Qed.



(** A value that the type or the bound of its field refuses is reported
    under the name of the field. *)
Lemma refused_value_reported (fields : list (@FieldInfo F))
    (payload data : Dict F) (errs : list (string * FieldError))
    (fi : @FieldInfo F) (given : PyVal F) (err : FieldError) :
  In fi fields ->
  dict_get (fi_name fi) payload = Some given ->
  validate_annotation fi given = inl err ->
  In (fi_name fi, err) (snd (validate_fields fields payload data errs)).
Proof.
  intros Hin Hget Hval. revert data errs.
  induction fields as [ | f rest IH ]; intros data errs; [ contradiction | ].
  cbn [validate_fields].
  destruct Hin as [-> | Hin].
  - unfold validate_field at 1. rewrite Hget, Hval.
    rewrite validate_fields_errors. apply in_or_app. left.
    apply in_or_app. right. left. reflexivity.
  - destruct (validate_field f payload data); apply (IH Hin).
Qed.

Lemma refused_value_rejected (payload : Dict F) (fi : @FieldInfo F)
    (given : PyVal F) (err : FieldError) :
  In fi model_fields ->
  dict_get (fi_name fi) payload = Some given ->
  validate_annotation fi given = inl err ->
  exists errs,
    calculate payload = Ok (mkContext errs None)
    /\ In (fi_name fi, err) errs.
Proof.
  intros Hin Hget Hval.
  pose proof (refused_value_reported model_fields payload [] [] fi given err
                Hin Hget Hval) as Hrep.
  unfold calculate, CalcForm.
  destruct (validate_fields model_fields payload [] []) as [d es].
  cbn [snd] in Hrep.
  destruct es as [ | e es ]; [ contradiction | ].
  eexists. split; [ reflexivity | exact Hrep ].
Qed.

(** X15: a number below zero in a field that the form bounds by [ge=0] is
    refused: whatever else the payload holds, the handler reports
    [greater_than_equal] under the name of the field and computes no
    results. *)
Theorem negative_field_rejected (payload : Dict F) (fi : @FieldInfo F) (x : F) :
  In fi model_fields ->
  fi_ge0 fi = true ->
  dict_get (fi_name fi) payload = Some (VFloat x) ->
  (x >=? lit 0) = false ->
  exists errs,
    calculate payload = Ok (mkContext errs None)
    /\ In (fi_name fi, greater_than_equal) errs.
Proof.
  intros Hin Hge Hget Hneg.
  apply (refused_value_rejected payload fi (VFloat x)); try assumption.
  unfold validate_annotation. rewrite Hge, Hneg. reflexivity.
Qed.

(** X16: the three fields of revenue and profit are required by the handler:
    a form that leaves the total turnover, the gross profit or the aggregator
    turnover blank is refused with [float_type] under that name, the
    aggregator turnover too, whose default 0 in the schema is never used. *)
Theorem blank_revenue_rejected (form : string -> option (PyVal F))
    (key : string) :
  key = "turnover_total" \/ key = "gross_profit"
  \/ key = "turnover_aggregator" ->
  form key = None ->
  exists errs,
    calculate (prepare_payload form) = Ok (mkContext errs None)
    /\ In (key, float_type) errs.
Proof.
  intros Hkey Hblank.
  assert (Hfield : exists fi,
             In fi model_fields /\ fi_name fi = key
             /\ fi_annotation fi = Float).
  { destruct Hkey as [-> | [-> | ->]];
      [ exists (mkField "turnover_total" Float None true)
      | exists (mkField "gross_profit" Float None false)
      | exists (mkField "turnover_aggregator" Float zero_default true) ];
      (split; [ field_of_model | split; reflexivity ]). }
  destruct Hfield as [fi [Hin [Hname Hann]]].
  rewrite <- Hname.
  apply (refused_value_rejected (prepare_payload form) fi VNone);
    [ exact Hin | | unfold validate_annotation; rewrite Hann; reflexivity ].
  unfold prepare_payload. cbv zeta.
  rewrite (dict_get_map model_fields _ fi model_fields_names_distinct Hin).
  rewrite Hname, Hblank.
  destruct Hkey as [-> | [-> | ->]]; reflexivity.
Qed.

End HandlerProperties.

(** ** The validation layer on binary64 *)

Section ValidationBinary64.

Local Open Scope float_scope.

(** X17: whatever the payload, the [Inputs] record that reaches
    [calculate_all] has every field that the form bounds by [ge=0] at least
    zero, and an override that is absent or at least zero; the order between
    the aggregator turnover and the total turnover is no part of it. *)
Theorem validated_inputs_bounded (payload : Dict float) :
  exists ctx,
    calculate payload = Ok ctx
    /\ match results ctx with
       | Some r =>
           Forall (fun x => (0 <=? x) = true) (bounded_fields (inputs r))
           /\ match white_payroll_override (inputs r) with
              | Some o => (0 <=? o) = true
              | None => True
              end
       | None => True
       end.
Proof.
  unfold calculate.
  destruct (CalcForm payload) as [errs | data] eqn:C.
  - eexists. split; [ reflexivity | exact I ].
  - destruct (to_inputs_validated payload data (CalcForm_accepts _ _ C))
      as [inp [Hinp [Hbounds Hover]]].
    rewrite Hinp. cbn [bind]. rewrite calculate_all_returns. cbn [bind].
    eexists. split; [ reflexivity | ].
    cbn [results inputs]. split; [ | exact Hover ].
    apply (Forall_impl _ (P := fun x => (@ge float binary64 x (lit 0)) = true
                                        \/ x = lit 0));
      [ | exact Hbounds ].
    intros x [Hx | ->]; [ exact Hx | reflexivity ].
Qed.

(** X18: behind the bound [ge=0] of their fields the validators
    [_turnover_non_negative] and [_aggregator_not_negative] never raise:
    every float that is at least zero is returned as it is. *)
Theorem bounded_value_passes_validators (v : float) :
  (0 <=? v) = true ->
  _turnover_non_negative v = Ok v /\ _aggregator_not_negative v = Ok v.
Proof.
  intros Hge.
  pose proof (binary64_nonnegative_not_negative v Hge) as Hlt.
  unfold _turnover_non_negative, _aggregator_not_negative.
  cbn [lt binary64]. change (@lit float binary64 0) with 0.
  rewrite Hlt. split; reflexivity.
Qed.

End ValidationBinary64.

Lemma bounded_value_passes_validators_witness :
  PrimFloat.leb 0 100 = true
  /\ _turnover_non_negative 100%float = Ok 100%float
  /\ _aggregator_not_negative 100%float = Ok 100%float.
Proof.
  split; [ reflexivity | ].
  apply (bounded_value_passes_validators 100%float). reflexivity.
Defined.


Lemma negative_field_rejected_witness :
  let payload := prepare_payload Scenario.negative_rent in
  let fi := mkField "rent" Float zero_default true in
  In fi model_fields
  /\ dict_get "rent" payload = Some (VFloat (-1)%float)
  /\ PrimFloat.leb 0 (-1) = false
  /\ exists errs,
       calculate payload = Ok (mkContext errs None)
       /\ In ("rent"%string, greater_than_equal) errs.
Proof.
  split; [ field_of_model | ].
  split; [ vm_compute; reflexivity | ].
  split; [ reflexivity | ].
  apply (negative_field_rejected (prepare_payload Scenario.negative_rent)
           (mkField "rent" Float zero_default true) (-1)%float);
    [ field_of_model | reflexivity | vm_compute; reflexivity | reflexivity ].
Defined.

Lemma blank_revenue_rejected_witness :
  Scenario.aggregator_blank "turnover_aggregator" = None
  /\ exists errs,
       calculate (prepare_payload Scenario.aggregator_blank)
       = Ok (mkContext errs None)
       /\ In ("turnover_aggregator"%string, float_type) errs.
Proof.
  split; [ reflexivity | ].
  apply (blank_revenue_rejected Scenario.aggregator_blank
           "turnover_aggregator"); [ right; right; reflexivity | reflexivity ].
Defined.

(** ** [as_dict] *)

Section DictProperties.

Context {F : Type} `{PyFloat F}.

Lemma optional_injective (o1 o2 : option F) :
  optional o1 = optional o2 -> o1 = o2.
Proof.
  destruct o1, o2; simpl; intros E; try discriminate;
    [ injection E as -> | ]; reflexivity.
Qed.

(** X20: the dictionary of [as_dict] holds every computed value and leaves
    the echo of the inputs out: two results have the same dictionary exactly
    when they agree on every field but [inputs]. *)
Theorem as_dict_keeps_all_but_inputs (r1 r2 : Results F) :
  as_dict r1 = as_dict r2
  <-> mkResults (inputs r1) (derived r2) (expenses r2) (profit_before_tax r2)
        (margin r2) (profitability r2) (taxable_profit r2) (ausn_tax r2)
        (ndfl_tax r2) (total_tax r2) (tax_burden_vs_turnover r2)
        (tax_burden_vs_profit r2)
      = r1.
Proof.
  destruct r1 as [i1 [a1 b1 c1 d1 e1] x1 p1 m1 q1 t1 u1 n1 w1 bt1 bp1].
  destruct r2 as [i2 [a2 b2 c2 d2 e2] x2 p2 m2 q2 t2 u2 n2 w2 bt2 bp2].
  unfold as_dict. cbn.
  split.
  - intros E. injection E as -> -> Hm Hq -> -> -> -> Hbt Hbp -> -> -> -> ->.
    apply optional_injective in Hm, Hq, Hbt, Hbp. subst. reflexivity.
  - intros E. injection E. intros. subst. reflexivity.
Qed.

End DictProperties.
